(** * Basketball pose analyser front end: upload, analyse and display

    A shallow embedding of the client-side logic of the dashboard
    (React components [FileUpload], [PoseAnalysis], [VideoAnalysis],
    [PlayerProgress], the top-level [App] and the axios client of
    [services/api.ts]) and the properties of its upload / analyse / render
    workflow.

    Conventions of the embedding.
    - A JavaScript number is the rational it denotes, or [NaN]; byte counts
      are integers.  Decimal literals such as [0.8] are the rationals they
      spell.
    - A property that may be missing from a payload ([undefined]) is an
      [option]; optional chaining [a?.b] is the bind of the option monad and
      [a || b] is [or_else], which tests JavaScript truthiness.
    - An [async] handler is the list of the actions it performs, in program
      order: calls of the React state setters, of axios and of the callbacks
      received as props.  The network is an argument: the progress events
      delivered while the request is in flight and the way the promise
      settles.  [run] replays the state setters of such a list on a
      component state. *)

From Stdlib Require Import QArith Qround ZArith String Ascii List Sorted Lia DecimalString.
From stdpp Require Import base option gmap strings.
Import ListNotations.

(** ** JavaScript primitives used by the components *)

Module JS.

Inductive number :=
| NaN
| Num (q : Q).

(** [ToNumber] of a property read: a missing property is [undefined],
    and [ToNumber(undefined)] is [NaN]. *)
Definition ToNumber (v : option Q) : number :=
  match v with
  | Some q => Num q
  | None => NaN
  end.

(** [a > b]: every comparison with [NaN] is false. *)
Definition gt (a b : number) : bool :=
  match a, b with
  | Num x, Num y => negb (Qle_bool x y)
  | _, _ => false
  end.

Definition mul (a b : number) : number :=
  match a, b with
  | Num x, Num y => Num (x * y)
  | _, _ => NaN
  end.

(** [Math.round]: the integer nearest to [x], ties towards +infinity. *)
Definition round_half_up (x : Q) : Z := Qfloor (x + (1 # 2)).

Definition Math_round (x : number) : number :=
  match x with
  | NaN => NaN
  | Num q => Num (inject_Z (round_half_up q))
  end.

Definition Z_toString (z : Z) : string := NilZero.string_of_int (Z.to_int z).

(** [String(x)] for the numbers the components print, which are all
    results of [Math.round] and hence integers (or [NaN]). *)
Definition toString (x : number) : string :=
  match x with
  | NaN => "NaN"
  | Num q => Z_toString (Qfloor q)
  end.

Fixpoint zeros (n : nat) : string :=
  match n with
  | O => ""
  | S k => String "0" (zeros k)
  end.

(** [Number.prototype.toFixed(f)] (for magnitudes below 10^21): the sign,
    then the integer [n] closest to [|x| * 10^f] (the larger of two
    candidates), padded with zeros to [f + 1] digits, with a point before
    the last [f] of them. *)
Definition toFixed (x : Q) (f : nat) : string :=
  let neg := negb (Qle_bool 0 x) in
  let a := if neg then (- x)%Q else x in
  let n := round_half_up (a * inject_Z (10 ^ Z.of_nat f)) in
  let m := Z_toString n in
  let m := if (String.length m <=? f)%nat
           then zeros (f + 1 - String.length m) +:+ m else m in
  let k := String.length m in
  let body := if (f =? 0)%nat then m
              else String.substring 0 (k - f) m +:+ "." +:+ String.substring (k - f) f m in
  (if neg then "-" else "") +:+ body.

(** Truthiness, as tested by [if], [!], [&&], [||] and [?:]. *)
Class Truthy (A : Type) := truthy : A -> bool.

#[global] Instance string_truthy : Truthy string :=
  fun s => negb (String.eqb s "").
#[global] Instance Q_truthy : Truthy Q :=
  fun q => negb (Qeq_bool q 0).
#[global] Instance Z_truthy : Truthy Z :=
  fun z => negb (Z.eqb z 0).
#[global] Instance number_truthy : Truthy number :=
  fun n => match n with NaN => false | Num q => truthy q end.
#[global] Instance option_truthy {A} `{Truthy A} : Truthy (option A) :=
  fun o => match o with Some a => truthy a | None => false end.

(** [a || b] where [a] may be [undefined] or [null]. *)
Definition or_else {A} `{Truthy A} (a : option A) (b : A) : A :=
  match a with
  | Some x => if truthy x then x else b
  | None => b
  end.

(** [s.startsWith(p)] *)
Definition startsWith (s p : string) : bool := String.prefix p s.

End JS.

Notation "a ||| b" := (JS.or_else a b) (at level 50, left associativity).

(** ** The HTTP transport (axios) as the code sees it *)

Module Axios.

(** A browser [File]: only what the code reads. *)
Record File := {
  name : string;
  type : string;
  size : Z
}.

(** [AxiosProgressEvent]: [total] is optional. *)
Record ProgressEvent := {
  loaded : Z;
  total : option Z
}.

(** The body of a request.  [trackPlayerProgress] also sends the analysis
    it was given, untouched; only the player id is kept here. *)
Inductive Body :=
| NoBody
| FormData (field : string) (file : File)
| PlayerProgressBody (player_id : string).

Record RequestConfig := {
  method : string;
  url : string;
  headers : gmap string string;
  body : Body
}.

(** [Math.round((progressEvent.loaded * 100) / progressEvent.total)],
    the expression of both [onUploadProgress] handlers. *)
Definition percent (loaded total : Z) : Z :=
  JS.round_half_up (inject_Z (loaded * 100) / inject_Z total).

(** What a rejected call throws: [err.response?.data?.detail].  An error
    that is not an HTTP error (a network failure, a [TypeError]) has no
    [response]. *)
Record ErrorData := { detail : option string }.
Record ErrorResponse := { data : option ErrorData }.
Record Error := { response : option ErrorResponse }.

Definition TypeError : Error := {| response := None |}.

(** How the promise returned by a call settles. *)
Inductive Settled (D : Type) :=
| Resolved (response_data : D)
| Rejected (err : Error).

Arguments Resolved {D} response_data.
Arguments Rejected {D} err.

(** A call on the global [axios] object: the components of this
    repository install no interceptor on it, so the request carries the
    headers of the call and nothing else. *)
Definition axios_request (method url : string) (body : Body)
  (headers : gmap string string) : RequestConfig :=
  {| method := method; url := url; headers := headers; body := body |}.

End Axios.

(** ** services/api.ts *)

Module Api.
Import Axios.

(** [process.env.REACT_APP_API_URL || 'http://localhost:8000'] *)
Definition API_BASE_URL (REACT_APP_API_URL : option string) : string :=
  REACT_APP_API_URL ||| "http://localhost:8000".

Record Client := {
  baseURL : string;
  timeout : Z;
  default_headers : gmap string string
}.

Definition apiClient (env : option string) : Client :=
  {| baseURL := API_BASE_URL env +:+ "/api/v1";
     timeout := 300000;
     default_headers := {["Content-Type" := "application/json"]} |}.

(** The request interceptor: reads [localStorage.getItem('auth_token')]
    and sets the [Authorization] header when the token is truthy. *)
Definition request_interceptor (localStorage : gmap string string)
  (config : RequestConfig) : RequestConfig :=
  match localStorage !! "auth_token" with
  | Some token =>
      if JS.truthy token
      then {| method := method config; url := url config;
              headers := <["Authorization" := "Bearer " +:+ token]> (headers config);
              body := body config |}
      else config
  | None => config
  end.

(** A call through [apiClient]: the headers of the call override the
    defaults of the instance, the path is appended to [baseURL], and the
    request interceptor runs last. *)
Definition send (env : option string) (localStorage : gmap string string)
  (method path : string) (body : Body) (hdrs : gmap string string) : RequestConfig :=
  request_interceptor localStorage
    {| method := method;
       url := baseURL (apiClient env) +:+ path;
       headers := hdrs ∪ default_headers (apiClient env);
       body := body |}.

Definition multipart : gmap string string :=
  {["Content-Type" := "multipart/form-data"]}.

Section Operations.
Context (env : option string) (localStorage : gmap string string).

Definition uploadImage (file : File) : RequestConfig :=
  send env localStorage "post" "/pose/upload-image" (FormData "file" file) multipart.

Definition uploadVideo_request (file : File) : RequestConfig :=
  send env localStorage "post" "/pose/upload-video" (FormData "file" file) multipart.

Definition analyzeImage (filename : string) : RequestConfig :=
  send env localStorage "post" ("/pose/analyze-image/" +:+ filename) NoBody ∅.

Definition analyzeVideo (filename : string) : RequestConfig :=
  send env localStorage "post" ("/pose/analyze-video/" +:+ filename) NoBody ∅.

Definition getPoseClasses : RequestConfig :=
  send env localStorage "get" "/pose/pose-classes" NoBody ∅.

Definition getAnalysisHistory (limit : Z) : RequestConfig :=
  send env localStorage "get"
    ("/pose/analysis-history?limit=" +:+ JS.Z_toString limit) NoBody ∅.

Definition trackPlayerProgress (playerId : string) : RequestConfig :=
  send env localStorage "post" "/pose/player-progress" (PlayerProgressBody playerId) ∅.

Definition getPlayerProgress (playerId : string) : RequestConfig :=
  send env localStorage "get" ("/pose/player-progress/" +:+ playerId) NoBody ∅.

Definition cleanupFile (filename : string) : RequestConfig :=
  send env localStorage "delete" ("/pose/cleanup/" +:+ filename) NoBody ∅.

End Operations.

(** The operations of [poseAnalysisAPI], to quantify over all of them. *)
Inductive Operation :=
| UploadImage (file : File)
| UploadVideo (file : File)
| AnalyzeImage (filename : string)
| AnalyzeVideo (filename : string)
| GetPoseClasses
| GetAnalysisHistory (limit : Z)
| TrackPlayerProgress (playerId : string)
| GetPlayerProgress (playerId : string)
| CleanupFile (filename : string).

Definition request_of (env : option string) (localStorage : gmap string string)
  (op : Operation) : RequestConfig :=
  match op with
  | UploadImage file => uploadImage env localStorage file
  | UploadVideo file => uploadVideo_request env localStorage file
  | AnalyzeImage filename => analyzeImage env localStorage filename
  | AnalyzeVideo filename => analyzeVideo env localStorage filename
  | GetPoseClasses => getPoseClasses env localStorage
  | GetAnalysisHistory limit => getAnalysisHistory env localStorage limit
  | TrackPlayerProgress playerId => trackPlayerProgress env localStorage playerId
  | GetPlayerProgress playerId => getPlayerProgress env localStorage playerId
  | CleanupFile filename => cleanupFile env localStorage filename
  end.

(** The [onUploadProgress] handler of [uploadVideo]: the values it passes
    to [onProgress] for one event (none when no callback was given or
    [progressEvent.total] is falsy). *)
Definition uploadVideo_onUploadProgress (onProgress_given : bool) (e : ProgressEvent)
  : list Z :=
  match total e with
  | Some t => if onProgress_given && JS.truthy t then [percent (loaded e) t] else []
  | None => []
  end.

Inductive action :=
| request (config : RequestConfig)
| onProgress (progress : Z).

(** [uploadVideo(file, onProgress?)]: the request, then one [onProgress]
    call per progress event that passes the guard. *)
Definition uploadVideo (env : option string) (localStorage : gmap string string)
  (file : File) (onProgress_given : bool) (events : list ProgressEvent) : list action :=
  request (uploadVideo_request env localStorage file)
  :: map onProgress (flat_map (uploadVideo_onUploadProgress onProgress_given) events).

(** The values received by the progress callback, in order. *)
Definition progress_values (t : list action) : list Z :=
  flat_map (fun a => match a with onProgress p => [p] | request _ => [] end) t.

End Api.

(** ** The [FileUpload] component *)

Module FileUpload.
Import Axios.

(** [fileType: 'image' | 'video'] *)
Inductive MediaKind := image | video.

(** The body of an upload response ([UploadResponse] in api.ts); the
    component reads it as [any], so every property may be missing. *)
Record UploadData := {
  filename : option string;
  file_path : option string;
  file_size : option Z;
  upload_time : option string
}.

Record State := {
  uploading : bool;
  uploadProgress : Z;
  uploadResult : option UploadData;
  error : option string
}.

Definition initial : State :=
  {| uploading := false; uploadProgress := 0; uploadResult := None; error := None |}.

Inductive action :=
| setUploading (b : bool)
| setUploadProgress (progress : Z)
| setUploadResult (r : option UploadData)
| setError (e : option string)
| axios_post (config : RequestConfig)
| onFileUpload (filename : option string) (fileType : MediaKind).

(** What the network does with one upload: the progress events delivered
    while the request is in flight, then the settlement; [response.data]
    is [None] for a [null] or missing body. *)
Record Transfer := {
  events : list ProgressEvent;
  settled : Settled (option UploadData)
}.

Definition isVideo (file : File) : bool := JS.startsWith (type file) "video/".

Definition endpoint (file : File) : string :=
  if isVideo file then "/upload-video" else "/upload-image".

Definition kind_of (file : File) : MediaKind :=
  if isVideo file then video else image.

(** The [onUploadProgress] handler of the drop: the value it passes to
    [setUploadProgress]. *)
Definition onUploadProgress (e : ProgressEvent) : Z :=
  match total e with
  | Some t => if JS.truthy t then percent (loaded e) t else 0
  | None => 0
  end.

(** [catch (err)]: [setError(err.response?.data?.detail || 'Upload failed')] *)
Definition catch (err : Error) : action :=
  setError (Some (((response err ≫= data) ≫= detail) ||| "Upload failed")).

(** [onDrop] up to its [await]: the resets and the request. *)
Definition onDrop_begin (file : File) : list action :=
  [ setUploading true;
    setError None;
    setUploadResult None;
    axios_post (axios_request "post"
                  ("http://localhost:8000/api/v1/pose" +:+ endpoint file)
                  (FormData "file" file)
                  {["Content-Type" := "multipart/form-data"]}) ].

(** [onDrop] after its [await]: the rest of the [try] block or the [catch]
    block, then the [finally] block.  Reading [response.data.filename]
    off a missing body throws a [TypeError], which the [catch] receives. *)
Definition onDrop_settled (file : File) (s : Settled (option UploadData)) : list action :=
  match s with
  | Resolved response_data =>
      setUploadResult response_data ::
      match response_data with
      | Some d => [onFileUpload (filename d) (kind_of file)]
      | None => [catch TypeError]
      end
  | Rejected err => [catch err]
  end ++ [setUploading false; setUploadProgress 0].

Definition onDrop (acceptedFiles : list File) (net : Transfer) : list action :=
  match acceptedFiles with
  | [] => []
  | file :: _ =>
      onDrop_begin file
      ++ map (fun e => setUploadProgress (onUploadProgress e)) (events net)
      ++ onDrop_settled file (settled net)
  end.

Definition step (st : State) (a : action) : State :=
  match a with
  | setUploading b =>
      {| uploading := b; uploadProgress := uploadProgress st;
         uploadResult := uploadResult st; error := error st |}
  | setUploadProgress p =>
      {| uploading := uploading st; uploadProgress := p;
         uploadResult := uploadResult st; error := error st |}
  | setUploadResult r =>
      {| uploading := uploading st; uploadProgress := uploadProgress st;
         uploadResult := r; error := error st |}
  | setError e =>
      {| uploading := uploading st; uploadProgress := uploadProgress st;
         uploadResult := uploadResult st; error := e |}
  | axios_post _ => st
  | onFileUpload _ _ => st
  end.

Definition run (st : State) (t : list action) : State := fold_left step t st.

(** The requests a list of actions issues. *)
Definition network_calls (t : list action) : list RequestConfig :=
  flat_map (fun a => match a with axios_post c => [c] | _ => [] end) t.

(** The calls of the completion hook in a list of actions. *)
Definition reported (t : list action) : list (option string * MediaKind) :=
  flat_map (fun a => match a with onFileUpload f k => [(f, k)] | _ => [] end) t.

(** The values passed to [setUploadProgress] by the progress handler,
    i.e. between the request and the settlement. *)
Definition progress_shown (net : Transfer) : list Z :=
  map onUploadProgress (events net).

(** [{error && <Alert severity="error">{error}</Alert>}]: the only message
    region of the component. *)
Definition errorAlert (st : State) : option string :=
  if JS.truthy (error st) then error st else None.

(** [{uploadResult && <Alert ...>Filename: {uploadResult.filename}</Alert>}] *)
Definition successAlert (st : State) : option (option string) :=
  filename <$> uploadResult st.

(** The options passed to [useDropzone]. *)
Record DropzoneOptions := {
  accept : list (string * list string);
  maxSize : Z;
  multiple : bool
}.

Definition dropzoneOptions : DropzoneOptions :=
  {| accept := [ ("image/*", [".png"; ".jpg"; ".jpeg"; ".bmp"]);
                 ("video/*", [".mp4"; ".avi"; ".mov"; ".mkv"]) ];
     maxSize := 50 * 1024 * 1024;
     multiple := false |}.

Section Dropzone.

(** The drop zone is the react-dropzone library.  Its test of a file
    against the [accept] map is a parameter here; the size test is
    [file.size <= maxSize].  A rejected file goes to the rejection list,
    which this component never reads, and [onDrop] runs with the accepted
    files only. *)
Variable fileAccepted : list (string * list string) -> File -> bool.

Definition fileMatchSize (opts : DropzoneOptions) (file : File) : bool :=
  (size file <=? maxSize opts)%Z.

Definition accepted (file : File) : list File :=
  if fileAccepted (accept dropzoneOptions) file && fileMatchSize dropzoneOptions file
  then [file] else [].

(** The user drops or selects one file. *)
Definition drop (file : File) (net : Transfer) : list action :=
  onDrop (accepted file) net.

End Dropzone.

End FileUpload.

(** ** Material-UI colour names used as quality tiers *)

Module Mui.

Inductive Color := success | warning | error.

End Mui.

(** ** The [PoseAnalysis] component *)

Module PoseAnalysis.
Import Axios.

(** The analysis payload, along the paths the component reads.  The source
    types it [any]: every property may be missing.  (The inner property
    [analysis.analysis] is [details] here: two fields of one module cannot
    share a name.) *)
Record TopDownPrediction := {
  class : option string;
  confidence : option Q
}.

Record QualityAssessment := { rating : option string }.

Record Feedback := {
  strengths : option (list string);
  improvements : option (list string);
  technique_tips : option (list string)
}.

Record PoseMetrics := {
  balance_ratio : option Q;
  torso_angle : option Q;
  body_symmetry : option Q;
  shoulder_width : option Q
}.

Record Details := {
  quality_assessment : option QualityAssessment;
  feedback : option Feedback;
  pose_metrics : option PoseMetrics;
  important_joints : option (list string)
}.

Record Analysis := {
  top_down_prediction : option TopDownPrediction;
  details : option Details;
  quality_score : option Q
}.

Record Response := {
  success : option bool;
  filename : option string;
  analysis : option Analysis
}.

Record State := {
  analyzing : bool;
  result : option Response;
  error : option string
}.

Definition initial : State :=
  {| analyzing := false; result := None; error := None |}.

Inductive action :=
| setAnalyzing (b : bool)
| setResult (r : option Response)
| setError (e : option string)
| axios_post (config : RequestConfig)
| onAnalysisComplete (r : option Response).

(** [catch (err)]: [setError(err.response?.data?.detail || 'Analysis failed')] *)
Definition catch (err : Error) : action :=
  setError (Some (((response err ≫= data) ≫= detail) ||| "Analysis failed")).

(** [analyzeFile] up to its [await]. *)
Definition analyzeFile_begin (uploadedFile : string) : list action :=
  [ setAnalyzing true;
    setError None;
    axios_post (axios_request "post"
                  ("http://localhost:8000/api/v1/pose/analyze-image/" +:+ uploadedFile)
                  NoBody ∅) ].

(** [analyzeFile] after its [await]: [try] or [catch], then [finally]. *)
Definition analyzeFile_settled (s : Settled (option Response)) : list action :=
  match s with
  | Resolved response_data => [setResult response_data; onAnalysisComplete response_data]
  | Rejected err => [catch err]
  end ++ [setAnalyzing false].

(** [analyzeFile]: returns at once when [uploadedFile] is falsy ([null] or
    the empty string). *)
Definition analyzeFile (uploadedFile : option string) (s : Settled (option Response))
  : list action :=
  match uploadedFile with
  | Some f => if JS.truthy f then analyzeFile_begin f ++ analyzeFile_settled s else []
  | None => []
  end.

Definition step (st : State) (a : action) : State :=
  match a with
  | setAnalyzing b => {| analyzing := b; result := result st; error := error st |}
  | setResult r => {| analyzing := analyzing st; result := r; error := error st |}
  | setError e => {| analyzing := analyzing st; result := result st; error := e |}
  | axios_post _ => st
  | onAnalysisComplete _ => st
  end.

Definition run (st : State) (t : list action) : State := fold_left step t st.

(** The actions performed before the first request is issued. *)
Fixpoint before_call (t : list action) : list action :=
  match t with
  | [] => []
  | axios_post _ :: _ => []
  | a :: rest => a :: before_call rest
  end.

Definition network_calls (t : list action) : list RequestConfig :=
  flat_map (fun a => match a with axios_post c => [c] | _ => [] end) t.

(** [{error && <Alert severity="error">{error}</Alert>}] *)
Definition errorAlert (st : State) : option string :=
  if JS.truthy (error st) then error st else None.

Definition getQualityColor (score : JS.number) : Mui.Color :=
  if JS.gt score (JS.Num 0.8) then Mui.success
  else if JS.gt score (JS.Num 0.6) then Mui.warning
  else Mui.error.

(** *** The cells of the "Detected Pose" card *)

(** [result.analysis.top_down_prediction?.class || 'Unknown'] *)
Definition poseChip (a : Analysis) : string :=
  (top_down_prediction a ≫= class) ||| "Unknown".

(** [Math.round((result.analysis.top_down_prediction?.confidence || 0) * 100)]
    between "Confidence: " and "%". *)
Definition confidenceCell (a : Analysis) : string :=
  "Confidence: "
  +:+ JS.toString (JS.Math_round
        (JS.mul (JS.Num ((top_down_prediction a ≫= confidence) ||| 0%Q)) (JS.Num 100)))
  +:+ "%".

(** [result.analysis.analysis?.quality_assessment?.rating || 'Unknown'] *)
Definition ratingCell (a : Analysis) : string :=
  ((details a ≫= quality_assessment) ≫= rating) ||| "Unknown".

(** The progress bar: [value] and [color]. *)
Definition qualityBarValue (a : Analysis) : JS.number :=
  JS.mul (JS.Num (quality_score a ||| 0%Q)) (JS.Num 100).

Definition qualityBarColor (a : Analysis) : Mui.Color :=
  getQualityColor (JS.Num (quality_score a ||| 0%Q)).

(** [Math.round((result.analysis.quality_score || 0) * 100)] between
    "Score: " and "/100". *)
Definition scoreCell (a : Analysis) : string :=
  "Score: "
  +:+ JS.toString (JS.Math_round (JS.mul (JS.Num (quality_score a ||| 0%Q)) (JS.Num 100)))
  +:+ "/100".

(** *** The cells of the "Pose Metrics" card *)

(** [v?.toFixed(digits) || 'N/A'] *)
Definition metric (v : option Q) (digits : nat) : string :=
  ((fun x => JS.toFixed x digits) <$> v) ||| "N/A".

(** The two characters that follow the torso angle in the source file. *)
Definition degrees : string :=
  String (ascii_of_nat 195) (String (ascii_of_nat 130)
    (String (ascii_of_nat 194) (String (ascii_of_nat 176) EmptyString))).

Definition balanceRatioCell (m : PoseMetrics) : string := metric (balance_ratio m) 2.
Definition torsoAngleCell (m : PoseMetrics) : string := metric (torso_angle m) 1 +:+ degrees.
Definition bodySymmetryCell (m : PoseMetrics) : string := metric (body_symmetry m) 3.
Definition shoulderWidthCell (m : PoseMetrics) : string := metric (shoulder_width m) 3.

(** [{result.analysis.analysis?.pose_metrics && (<Card>...</Card>)}]: the
    card and its four cells, or nothing. *)
Definition poseMetricsCard (a : Analysis) : option (list (string * string)) :=
  match details a ≫= pose_metrics with
  | Some m =>
      Some [ ("Balance Ratio", balanceRatioCell m);
             ("Torso Angle", torsoAngleCell m);
             ("Body Symmetry", bodySymmetryCell m);
             ("Shoulder Width", shoulderWidthCell m) ]
  | None => None
  end.

End PoseAnalysis.

(** ** The [VideoAnalysis] component *)

Module VideoAnalysis.
Import Axios.

Record MotionAnalysis := {
  motion_quality : option string;
  smoothness_score : option Q;
  rhythm_consistency : option Q;
  average_velocity : option Q;
  max_velocity : option Q
}.

Record Feedback := {
  overall_assessment : option string;
  key_observations : option (list string);
  improvement_areas : option (list string);
  drills_recommended : option (list string)
}.

Record OverallPrediction := { top_down_class : option string }.

Record Analysis := {
  feedback : option Feedback;
  overall_prediction : option OverallPrediction;
  sequence_length : option Q;
  motion_analysis : option MotionAnalysis
}.

Record Response := {
  success : option bool;
  filename : option string;
  analysis : option Analysis
}.

Record State := {
  analyzing : bool;
  result : option Response;
  error : option string
}.

Definition initial : State :=
  {| analyzing := false; result := None; error := None |}.

Inductive action :=
| setAnalyzing (b : bool)
| setResult (r : option Response)
| setError (e : option string)
| axios_post (config : RequestConfig)
| onAnalysisComplete (r : option Response).

(** [catch (err)]: [setError(err.response?.data?.detail || 'Video analysis failed')] *)
Definition catch (err : Error) : action :=
  setError (Some (((response err ≫= data) ≫= detail) ||| "Video analysis failed")).

Definition analyzeVideo_begin (uploadedFile : string) : list action :=
  [ setAnalyzing true;
    setError None;
    axios_post (axios_request "post"
                  ("http://localhost:8000/api/v1/pose/analyze-video/" +:+ uploadedFile)
                  NoBody ∅) ].

Definition analyzeVideo_settled (s : Settled (option Response)) : list action :=
  match s with
  | Resolved response_data => [setResult response_data; onAnalysisComplete response_data]
  | Rejected err => [catch err]
  end ++ [setAnalyzing false].

Definition analyzeVideo (uploadedFile : option string) (s : Settled (option Response))
  : list action :=
  match uploadedFile with
  | Some f => if JS.truthy f then analyzeVideo_begin f ++ analyzeVideo_settled s else []
  | None => []
  end.

Definition step (st : State) (a : action) : State :=
  match a with
  | setAnalyzing b => {| analyzing := b; result := result st; error := error st |}
  | setResult r => {| analyzing := analyzing st; result := r; error := error st |}
  | setError e => {| analyzing := analyzing st; result := result st; error := e |}
  | axios_post _ => st
  | onAnalysisComplete _ => st
  end.

Definition run (st : State) (t : list action) : State := fold_left step t st.

Fixpoint before_call (t : list action) : list action :=
  match t with
  | [] => []
  | axios_post _ :: _ => []
  | a :: rest => a :: before_call rest
  end.

Definition network_calls (t : list action) : list RequestConfig :=
  flat_map (fun a => match a with axios_post c => [c] | _ => [] end) t.

Definition errorAlert (st : State) : option string :=
  if JS.truthy (error st) then error st else None.

(** [quality.toLowerCase()], on the ASCII letters. *)
Definition lower (c : ascii) : ascii :=
  let n := nat_of_ascii c in
  if ((65 <=? n) && (n <=? 90))%nat then ascii_of_nat (n + 32) else c.

Fixpoint toLowerCase (s : string) : string :=
  match s with
  | EmptyString => EmptyString
  | String c rest => String (lower c) (toLowerCase rest)
  end.

Definition getMotionQualityColor (quality : string) : Mui.Color :=
  let q := toLowerCase quality in
  if String.eqb q "smooth" then Mui.success
  else if String.eqb q "moderate" then Mui.warning
  else Mui.error.

(** *** The cells of the "Motion Quality Metrics" card *)

(** [Math.round(m.smoothness_score * 100)] followed by "%": no default. *)
Definition smoothnessCell (m : MotionAnalysis) : string :=
  JS.toString (JS.Math_round (JS.mul (JS.ToNumber (smoothness_score m)) (JS.Num 100))) +:+ "%".

Definition smoothnessColor (m : MotionAnalysis) : Mui.Color :=
  if JS.gt (JS.ToNumber (smoothness_score m)) (JS.Num 0.7) then Mui.success else Mui.warning.

Definition rhythmCell (m : MotionAnalysis) : string :=
  JS.toString (JS.Math_round (JS.mul (JS.ToNumber (rhythm_consistency m)) (JS.Num 100))) +:+ "%".

Definition rhythmColor (m : MotionAnalysis) : Mui.Color :=
  if JS.gt (JS.ToNumber (rhythm_consistency m)) (JS.Num 0.7) then Mui.success else Mui.warning.

(** [v?.toFixed(4) || 'N/A'] *)
Definition velocity (v : option Q) : string :=
  ((fun x => JS.toFixed x 4) <$> v) ||| "N/A".

Definition avgVelocityCell (m : MotionAnalysis) : string := velocity (average_velocity m).
Definition maxVelocityCell (m : MotionAnalysis) : string := velocity (max_velocity m).

End VideoAnalysis.

(** ** The [PlayerProgress] component: the rows of "Recent Training Sessions" *)

Module PlayerProgress.

(** [session.quality > 0.8 ? 'success' : session.quality > 0.6 ? 'warning' : 'error'],
    the colour of the bar and of the chip of a row. *)
Definition sessionColor (quality : JS.number) : Mui.Color :=
  if JS.gt quality (JS.Num 0.8) then Mui.success
  else if JS.gt quality (JS.Num 0.6) then Mui.warning
  else Mui.error.

Definition sessionLabel (quality : JS.number) : string :=
  if JS.gt quality (JS.Num 0.8) then "Excellent"
  else if JS.gt quality (JS.Num 0.6) then "Good"
  else "Needs Work".

(** The "Performance Level" card of the overview. *)
Definition levelLabel (average_pose_quality : JS.number) : string :=
  if JS.gt average_pose_quality (JS.Num 0.8) then "Advanced"
  else if JS.gt average_pose_quality (JS.Num 0.6) then "Intermediate"
  else "Beginner".

Definition levelColor (average_pose_quality : JS.number) : Mui.Color :=
  if JS.gt average_pose_quality (JS.Num 0.8) then Mui.success else Mui.warning.

End PlayerProgress.

(** ** The top-level [App] component *)

Module App.

(** [analysisResult: any]: whatever an analysis view reported. *)
Inductive AnalysisResult :=
| PoseResult (r : option PoseAnalysis.Response)
| VideoResult (r : option VideoAnalysis.Response).

Record State := {
  activeTab : Z;
  uploadedFile : option string;
  analysisResult : option AnalysisResult
}.

Definition initial : State :=
  {| activeTab := 0; uploadedFile := None; analysisResult := None |}.

Definition handleTabChange (newValue : Z) (st : State) : State :=
  {| activeTab := newValue; uploadedFile := uploadedFile st;
     analysisResult := analysisResult st |}.

(** [handleFileUpload = (filename: string) => { setUploadedFile(filename);
    setActiveTab(1); }] *)
Definition handleFileUpload (filename : option string) (st : State) : State :=
  {| activeTab := 1; uploadedFile := filename; analysisResult := analysisResult st |}.

Definition handleAnalysisComplete (r : AnalysisResult) (st : State) : State :=
  {| activeTab := activeTab st; uploadedFile := uploadedFile st;
     analysisResult := Some r |}.

(** [<FileUpload onFileUpload={handleFileUpload} />]: the upload widget
    calls the prop with [(filename, fileType)]; the handler has one
    parameter, so the second argument is dropped. *)
Definition onFileUpload (filename : option string) (fileType : FileUpload.MediaKind)
  (st : State) : State :=
  handleFileUpload filename st.

(** The top level's reaction to the actions of one drop. *)
Definition after_upload (st : State) (t : list FileUpload.action) : State :=
  fold_left (fun s r => onFileUpload (fst r) (snd r) s) (FileUpload.reported t) st.

(** The tab panels: a [TabPanel] renders its child only when
    [value === index]. *)
Inductive Panel :=
| FileUploadPanel
| PoseAnalysisPanel (uploadedFile : option string)
| VideoAnalysisPanel (uploadedFile : option string)
| PlayerProgressPanel (analysisResult : option AnalysisResult)
| NoPanel.

Definition visiblePanel (st : State) : Panel :=
  if (activeTab st =? 0)%Z then FileUploadPanel
  else if (activeTab st =? 1)%Z then PoseAnalysisPanel (uploadedFile st)
  else if (activeTab st =? 2)%Z then VideoAnalysisPanel (uploadedFile st)
  else if (activeTab st =? 3)%Z then PlayerProgressPanel (analysisResult st)
  else NoPanel.

End App.

(** ** Comparing requests *)

Module Target.

(** Two requests that differ at most in their headers. *)
Definition same_target (c1 c2 : Axios.RequestConfig) : Prop :=
  Axios.method c1 = Axios.method c2 /\
  Axios.url c1 = Axios.url c2 /\
  Axios.body c1 = Axios.body c2.

End Target.

(** ** Text helpers of the views *)

Module Text.

(** [s.toUpperCase()], on the ASCII letters. *)
Definition upper (c : ascii) : ascii :=
  let n := nat_of_ascii c in
  if ((97 <=? n) && (n <=? 122))%nat then ascii_of_nat (n - 32) else c.

Fixpoint toUpperCase (s : string) : string :=
  match s with
  | EmptyString => EmptyString
  | String c rest => String (upper c) (toUpperCase rest)
  end.

(** [s.replace(/_/g, ' ')] *)
Fixpoint replace_underscores (s : string) : string :=
  match s with
  | EmptyString => EmptyString
  | String c rest =>
      String (if Ascii.eqb c "_" then " "%char else c) (replace_underscores rest)
  end.

(** [joint.replace(/_/g, ' ').toUpperCase()], the label of a joint chip
    and of the pose chip of a session row. *)
Definition chipLabel (s : string) : string :=
  toUpperCase (replace_underscores s).

(** The strings on which the two case mappings above are those of
    JavaScript: every character is ASCII. *)
Fixpoint is_ascii (s : string) : bool :=
  match s with
  | EmptyString => true
  | String c rest => (nat_of_ascii c <? 128)%nat && is_ascii rest
  end.

(** The characters of a string. *)
Fixpoint chars (s : string) : list ascii :=
  match s with
  | EmptyString => []
  | String c rest => c :: chars rest
  end.

Definition is_lower (c : ascii) : bool :=
  ((97 <=? nat_of_ascii c) && (nat_of_ascii c <=? 122))%nat.

End Text.

(** ** What the [PoseAnalysis] component renders of a result *)

Module PoseAnalysisView.
Import PoseAnalysis.

Inductive Icon := CheckCircle | TrendingUp | Warning.

(** [getQualityIcon]: the icon and its colour, by the lower-cased rating. *)
Definition getQualityIcon (rating : string) : Icon * Mui.Color :=
  let r := VideoAnalysis.toLowerCase rating in
  if String.eqb r "excellent" then (CheckCircle, Mui.success)
  else if String.eqb r "good" then (TrendingUp, Mui.warning)
  else (Warning, Mui.error).

(** [{list?.length > 0 && (<Accordion>...list.map(...)...</Accordion>)}]:
    the items of a feedback section, or nothing. *)
Definition section (l : option (list string)) : option (list string) :=
  match l with
  | Some items => if (0 <? length items)%nat then Some items else None
  | None => None
  end.

Record FeedbackSections := {
  strengths_section : option (list string);
  improvements_section : option (list string);
  tips_section : option (list string)
}.

(** [{result.analysis.analysis?.feedback && (<Box>...</Box>)}] *)
Definition feedbackSections (a : Analysis) : option FeedbackSections :=
  match details a ≫= feedback with
  | Some f =>
      Some {| strengths_section := section (strengths f);
              improvements_section := section (improvements f);
              tips_section := section (technique_tips f) |}
  | None => None
  end.

(** [{result.analysis.analysis?.important_joints && (<Card>...</Card>)}]:
    the labels of the chips; an array is truthy even when it is empty. *)
Definition jointsCard (a : Analysis) : option (list string) :=
  map Text.chipLabel <$> (details a ≫= important_joints).

Record Cards := {
  pose : string;
  confidence_line : string;
  rating_icon : Icon * Mui.Color;
  rating_text : string;
  bar : JS.number * Mui.Color;
  score_line : string;
  feedback_sections : option FeedbackSections;
  metrics_card : option (list (string * string));
  joints_card : option (list string)
}.

(** [{result && result.analysis && (<>...</>)}] *)
Definition resultCards (st : State) : option Cards :=
  match result st ≫= analysis with
  | Some a =>
      Some {| pose := poseChip a;
              confidence_line := confidenceCell a;
              rating_icon := getQualityIcon (ratingCell a);
              rating_text := ratingCell a;
              bar := (qualityBarValue a, qualityBarColor a);
              score_line := scoreCell a;
              feedback_sections := feedbackSections a;
              metrics_card := poseMetricsCard a;
              joints_card := jointsCard a |}
  | None => None
  end.

End PoseAnalysisView.

(** ** What the [VideoAnalysis] component renders of a result *)

Module VideoAnalysisView.
Import VideoAnalysis.

(** The outcome of rendering a part of the page: nothing, an element, or
    a [TypeError] thrown while rendering. *)
Inductive Render (A : Type) :=
| Nothing
| Shown (a : A)
| Throws.

Arguments Nothing {A}.
Arguments Shown {A} a.
Arguments Throws {A}.

(** [result.analysis.feedback?.overall_assessment || 'Analysis complete'] *)
Definition overallAssessment (a : Analysis) : string :=
  (feedback a ≫= overall_assessment) ||| "Analysis complete".

(** [{result.analysis.overall_prediction && (<Chip label={...top_down_class} />)}] *)
Definition patternChip (a : Analysis) : option (option string) :=
  top_down_class <$> overall_prediction a.

Record MotionCard := {
  quality_chip : string * Mui.Color;
  smoothness : string * Mui.Color;
  rhythm : string * Mui.Color;
  avg_velocity : string;
  max_velocity_cell : string
}.

(** The card under [{result.analysis.motion_analysis && (...)}].  The chip
    calls [getMotionQualityColor(m.motion_quality)], whose
    [quality.toLowerCase()] throws when the property is missing; the
    other cells read their properties without a call. *)
Definition motionCard (m : MotionAnalysis) : Render MotionCard :=
  match motion_quality m with
  | Some q =>
      Shown {| quality_chip := (q, getMotionQualityColor q);
               smoothness := (smoothnessCell m, smoothnessColor m);
               rhythm := (rhythmCell m, rhythmColor m);
               avg_velocity := avgVelocityCell m;
               max_velocity_cell := maxVelocityCell m |}
  | None => Throws
  end.

Definition motionSection (a : Analysis) : Render MotionCard :=
  match motion_analysis a with
  | Some m => motionCard m
  | None => Nothing
  end.

Record FeedbackSections := {
  observations_section : option (list string);
  improvement_section : option (list string);
  drills_section : option (list string)
}.

(** [{result.analysis.feedback && (<Card>...</Card>)}] *)
Definition feedbackSections (a : Analysis) : option FeedbackSections :=
  match feedback a with
  | Some f =>
      Some {| observations_section := PoseAnalysisView.section (key_observations f);
              improvement_section := PoseAnalysisView.section (improvement_areas f);
              drills_section := PoseAnalysisView.section (drills_recommended f) |}
  | None => None
  end.

(** [{result.analysis.sequence_length && (<Typography>Analyzed {n} frames
    </Typography>)}]: when the left operand is falsy React is handed that
    operand, and it prints a number, even 0. *)
Inductive FramesLine :=
| NoLine
| BareNumber (n : Q)
| AnalyzedFrames (n : Q).

Definition framesLine (a : Analysis) : FramesLine :=
  match sequence_length a with
  | Some n => if JS.truthy n then AnalyzedFrames n else BareNumber n
  | None => NoLine
  end.

Record Cards := {
  assessment : string;
  pattern : option (option string);
  frames : FramesLine;
  motion : option MotionCard;
  feedback_sections : option FeedbackSections
}.

(** [{result && result.analysis && (<>...</>)}]: an exception in any part
    is an exception of the whole. *)
Definition resultCards (st : State) : Render Cards :=
  match result st ≫= analysis with
  | Some a =>
      match motionSection a with
      | Throws => Throws
      | Shown c =>
          Shown {| assessment := overallAssessment a; pattern := patternChip a;
                   frames := framesLine a;
                   motion := Some c; feedback_sections := feedbackSections a |}
      | Nothing =>
          Shown {| assessment := overallAssessment a; pattern := patternChip a;
                   frames := framesLine a;
                   motion := None; feedback_sections := feedbackSections a |}
      end
  | None => Nothing
  end.

End VideoAnalysisView.

(** ** The completion callback of the analysis views *)

Module Completion.

(** The payloads passed to [onAnalysisComplete] in a list of actions. *)
Definition pose (t : list PoseAnalysis.action) : list (option PoseAnalysis.Response) :=
  flat_map (fun a => match a with PoseAnalysis.onAnalysisComplete r => [r] | _ => [] end) t.

Definition video (t : list VideoAnalysis.action) : list (option VideoAnalysis.Response) :=
  flat_map (fun a => match a with VideoAnalysis.onAnalysisComplete r => [r] | _ => [] end) t.

End Completion.

(** ** The analyze button and the requests in flight *)

Module AnalyzeButton.

Section Workflow.

(** One analysis view: its state, the state setters run by the handler
    before its [await] ([begin]) and after it ([settle]).  The button is
    rendered only when [uploadedFile] is truthy, with
    [disabled={analyzing}], and its [onClick] is the handler. *)
Context {State Outcome : Type}.
Variable analyzing : State -> bool.
Variable begin : string -> State -> State.
Variable settle : Outcome -> State -> State.

Record View := {
  state : State;
  uploadedFile : option string;
  in_flight : nat
}.

Inductive event :=
| Click
| Settle (o : Outcome)
| Props (uploadedFile : option string).

Definition clickable (v : View) : bool :=
  JS.truthy (uploadedFile v) && negb (analyzing (state v)).

Definition react (v : View) (e : event) : View :=
  match e with
  | Click =>
      if clickable v then
        match uploadedFile v with
        | Some f =>
            if JS.truthy f
            then {| state := begin f (state v); uploadedFile := uploadedFile v;
                    in_flight := S (in_flight v) |}
            else v
        | None => v
        end
      else v
  | Settle o =>
      match in_flight v with
      | S n => {| state := settle o (state v); uploadedFile := uploadedFile v;
                  in_flight := n |}
      | O => v
      end
  | Props f =>
      {| state := state v; uploadedFile := f; in_flight := in_flight v |}
  end.

Definition play (v : View) (events : list event) : View := fold_left react events v.

(** The number of requests in flight is 1 while Analyzing and 0 otherwise. *)
Definition balanced (v : View) : Prop :=
  in_flight v = if analyzing (state v) then 1%nat else 0%nat.

End Workflow.

(** The two views. *)
Definition pose_begin (f : string) (st : PoseAnalysis.State) : PoseAnalysis.State :=
  PoseAnalysis.run st (PoseAnalysis.analyzeFile_begin f).

Definition pose_settle (o : Axios.Settled (option PoseAnalysis.Response))
  (st : PoseAnalysis.State) : PoseAnalysis.State :=
  PoseAnalysis.run st (PoseAnalysis.analyzeFile_settled o).

Definition pose_play :=
  play PoseAnalysis.analyzing pose_begin pose_settle
    {| state := PoseAnalysis.initial; uploadedFile := None; in_flight := 0 |}.

Definition video_begin (f : string) (st : VideoAnalysis.State) : VideoAnalysis.State :=
  VideoAnalysis.run st (VideoAnalysis.analyzeVideo_begin f).

Definition video_settle (o : Axios.Settled (option VideoAnalysis.Response))
  (st : VideoAnalysis.State) : VideoAnalysis.State :=
  VideoAnalysis.run st (VideoAnalysis.analyzeVideo_settled o).

Definition video_play :=
  play VideoAnalysis.analyzing video_begin video_settle
    {| state := VideoAnalysis.initial; uploadedFile := None; in_flight := 0 |}.

End AnalyzeButton.

(** ** The events the top level reacts to *)

Module AppEvents.
Import App.

Inductive event :=
| TabChange (newValue : Z)
| FileUploaded (filename : option string) (fileType : FileUpload.MediaKind)
| AnalysisComplete (r : AnalysisResult).

Definition handle (st : State) (e : event) : State :=
  match e with
  | TabChange n => handleTabChange n st
  | FileUploaded f k => onFileUpload f k st
  | AnalysisComplete r => handleAnalysisComplete r st
  end.

Definition play (st : State) (events : list event) : State := fold_left handle events st.

(** The filename of the last upload among the events, if any. *)
Fixpoint last_uploaded (events : list event) : option (option string) :=
  match events with
  | [] => None
  | e :: rest =>
      match last_uploaded rest with
      | Some f => Some f
      | None => match e with FileUploaded f _ => Some f | _ => None end
      end
  end.

(** The payload of the last completed analysis among the events, if any. *)
Fixpoint last_analysis (events : list event) : option AnalysisResult :=
  match events with
  | [] => None
  | e :: rest =>
      match last_analysis rest with
      | Some r => Some r
      | None => match e with AnalysisComplete r => Some r | _ => None end
      end
  end.

End AppEvents.

(** ** More of the [PlayerProgress] component *)

Module PlayerProgressView.

(** [COLORS] and [COLORS[index % COLORS.length]], the fill of a pie slice. *)
Definition COLORS : list string :=
  ["#FF6B35"; "#004D9F"; "#F7931E"; "#00BCD4"; "#4CAF50"; "#9C27B0"].

Definition sliceFill (index : nat) : option string :=
  COLORS !! (index mod length COLORS)%nat.

(** [Math.round(session.quality * 100)] followed by "%". *)
Definition qualityPercent (quality : JS.number) : string :=
  JS.toString (JS.Math_round (JS.mul quality (JS.Num 100))) +:+ "%".

End PlayerProgressView.

(** ** Concrete inputs used by the examples below *)

Module Sample.
Import Axios.

Definition clip : File :=
  {| name := "drive.mp4"; type := "video/mp4"; size := 10 * 1024 * 1024 |}.

Definition photo : File :=
  {| name := "shot.png"; type := "image/png"; size := 2 * 1024 * 1024 |}.

Definition oversized : File :=
  {| name := "game.mp4"; type := "video/mp4"; size := 60 * 1024 * 1024 |}.

(** The body the server answers an upload with. *)
Definition stored (n : string) : FileUpload.UploadData :=
  {| FileUpload.filename := Some n;
     FileUpload.file_path := Some ("uploads/" +:+ n);
     FileUpload.file_size := Some 1000%Z;
     FileUpload.upload_time := Some "2024-12-01T10:00:00" |}.

(** Progress events of a 1000-byte request body. *)
Definition steady : list ProgressEvent :=
  [ {| loaded := 0; total := Some 1000%Z |};
    {| loaded := 333; total := Some 1000%Z |};
    {| loaded := 1000; total := Some 1000%Z |} ].

(** Progress events of a transfer whose length is not computable. *)
Definition unsized : list ProgressEvent :=
  [ {| loaded := 1024; total := None |};
    {| loaded := 2048; total := None |} ].

Definition service_error (d : option string) : Error :=
  {| response := Some {| data := Some {| detail := d |} |} |}.

(** A result stored by an earlier analysis. *)
Definition earlier : PoseAnalysis.Response :=
  {| PoseAnalysis.success := Some true;
     PoseAnalysis.filename := Some "old.png";
     PoseAnalysis.analysis :=
       Some {| PoseAnalysis.top_down_prediction :=
                 Some {| PoseAnalysis.class := Some "shooting";
                         PoseAnalysis.confidence := Some 0.91%Q |};
               PoseAnalysis.details := None;
               PoseAnalysis.quality_score := Some 0.85%Q |} |}.

Definition showing_earlier : PoseAnalysis.State :=
  {| PoseAnalysis.analyzing := false;
     PoseAnalysis.result := Some earlier;
     PoseAnalysis.error := Some "Analysis failed" |}.

(** An analysis payload with none of the optional properties. *)
Definition bare : PoseAnalysis.Analysis :=
  {| PoseAnalysis.top_down_prediction := None;
     PoseAnalysis.details := None;
     PoseAnalysis.quality_score := None |}.

(** Browser storage after a login stored a token. *)
Definition logged_in : gmap string string := {["auth_token" := "abc123"]}.

(** A stand-in for the drop zone's [accept] test: the file name ends with
    one of the listed extensions. *)
Definition by_extension (accept : list (string * list string)) (file : File) : bool :=
  existsb (fun ext =>
             String.eqb ext
               (String.substring (String.length (name file) - String.length ext)
                  (String.length ext) (name file)))
          (flat_map snd accept).

Definition notes : File :=
  {| name := "notes.txt"; type := "text/plain"; size := 1024 |}.

End Sample.

(** * Properties *)

(** ** Quality tiers *)

Lemma gt_Num_iff (x y : Q) : JS.gt (JS.Num x) (JS.Num y) = true <-> (y < x)%Q.
Proof.
  unfold JS.gt. rewrite negb_true_iff. split.
  - intros H. apply Qnot_le_lt. intros Hle.
    apply Qle_bool_iff in Hle. congruence.
  - intros H. destruct (Qle_bool x y) eqn:E; [|reflexivity].
    apply Qle_bool_iff in E. exfalso. exact (Qlt_not_le _ _ H E).
Qed.

Lemma gt_Num_false_iff (x y : Q) : JS.gt (JS.Num x) (JS.Num y) = false <-> (x <= y)%Q.
Proof.
  split.
  - intros H. apply Qnot_lt_le. intros Hlt. apply gt_Num_iff in Hlt. congruence.
  - intros H. destruct (JS.gt (JS.Num x) (JS.Num y)) eqn:E; [|reflexivity].
    apply gt_Num_iff in E. exfalso. exact (Qlt_not_le _ _ E H).
Qed.

Lemma gt_NaN_l (y : JS.number) : JS.gt JS.NaN y = false.
Proof. reflexivity. Qed.

(** The three-way split of [getQualityColor] on a numeric score, in terms
    of the two comparisons it makes. *)
Lemma getQualityColor_cases (s : Q) :
  ((0.8 < s)%Q /\ PoseAnalysis.getQualityColor (JS.Num s) = Mui.success) \/
  ((0.6 < s)%Q /\ (s <= 0.8)%Q /\ PoseAnalysis.getQualityColor (JS.Num s) = Mui.warning) \/
  ((s <= 0.6)%Q /\ PoseAnalysis.getQualityColor (JS.Num s) = Mui.error).
Proof.
  unfold PoseAnalysis.getQualityColor.
  destruct (JS.gt (JS.Num s) (JS.Num 0.8)) eqn:E1.
  - left. split; [apply gt_Num_iff, E1 | reflexivity].
  - apply gt_Num_false_iff in E1.
    destruct (JS.gt (JS.Num s) (JS.Num 0.6)) eqn:E2.
    + right; left. repeat split; [apply gt_Num_iff, E2 | exact E1].
    + right; right. split; [apply gt_Num_false_iff, E2 | reflexivity].
Qed.

(** A score that is not a number falls through both comparisons. *)
Lemma getQualityColor_NaN : PoseAnalysis.getQualityColor JS.NaN = Mui.error.
Proof. reflexivity. Qed.

(** The only call of [getQualityColor] passes [quality_score || 0]: a
    number, never [NaN]. *)
Lemma qualityBarColor_numeric (a : PoseAnalysis.Analysis) :
  exists q : Q, PoseAnalysis.qualityBarColor a = PoseAnalysis.getQualityColor (JS.Num q).
Proof. eexists. reflexivity. Qed.

(** The rows of the progress table use the same two comparisons. *)
Lemma sessionColor_getQualityColor (s : JS.number) :
  PlayerProgress.sessionColor s = PoseAnalysis.getQualityColor s.
Proof. reflexivity. Qed.

(** C1: the tier is a function of the numeric score alone: success iff
    s > 0.8, warning iff 0.6 < s <= 0.8, error iff s <= 0.6; the boundary
    0.8 is warning and the boundary 0.6 is error; the rows of the progress
    table choose their colour the same way. *)
Theorem quality_tier_thresholds (s : Q) :
  (PoseAnalysis.getQualityColor (JS.Num s) = Mui.success <-> (0.8 < s)%Q) /\
  (PoseAnalysis.getQualityColor (JS.Num s) = Mui.warning <-> (0.6 < s)%Q /\ (s <= 0.8)%Q) /\
  (PoseAnalysis.getQualityColor (JS.Num s) = Mui.error <-> (s <= 0.6)%Q) /\
  PoseAnalysis.getQualityColor (JS.Num 0.8) = Mui.warning /\
  PoseAnalysis.getQualityColor (JS.Num 0.6) = Mui.error /\
  PlayerProgress.sessionColor (JS.Num s) = PoseAnalysis.getQualityColor (JS.Num s).
Proof.
  assert (H68 : (0.6 < 0.8)%Q) by reflexivity.
  split; [|split; [|split; [|repeat split; reflexivity]]].
  - destruct (getQualityColor_cases s) as [[H1 E] | [[H1 [H2 E]] | [H1 E]]];
      rewrite E; split; try discriminate; try (intros _; reflexivity);
      try (intros _; assumption); intros H; exfalso.
    + exact (Qlt_not_le _ _ H H2).
    + apply (Qlt_not_le _ _ H). apply Qle_trans with 0.6%Q; [exact H1|].
      apply Qlt_le_weak, H68.
  - destruct (getQualityColor_cases s) as [[H1 E] | [[H1 [H2 E]] | [H1 E]]];
      rewrite E; split; try discriminate; try (intros _; reflexivity);
      try (intros _; split; assumption); intros [Ha Hb]; exfalso.
    + exact (Qlt_not_le _ _ H1 Hb).
    + exact (Qlt_not_le _ _ Ha H1).
  - destruct (getQualityColor_cases s) as [[H1 E] | [[H1 [H2 E]] | [H1 E]]];
      rewrite E; split; try discriminate; try (intros _; reflexivity);
      try (intros _; assumption); intros H; exfalso.
    + apply (Qlt_not_le _ _ H1). apply Qle_trans with 0.6%Q; [exact H|].
      apply Qlt_le_weak, H68.
    + exact (Qlt_not_le _ _ H1 H).
Qed.

(** ** Upload: what the completion hook receives *)

Lemma reported_app (t1 t2 : list FileUpload.action) :
  FileUpload.reported (t1 ++ t2) = FileUpload.reported t1 ++ FileUpload.reported t2.
Proof. apply flat_map_app. Qed.

Lemma network_calls_app (t1 t2 : list FileUpload.action) :
  FileUpload.network_calls (t1 ++ t2)
  = FileUpload.network_calls t1 ++ FileUpload.network_calls t2.
Proof. apply flat_map_app. Qed.

(** The progress handler only moves the progress bar. *)
Lemma reported_progress (evs : list Axios.ProgressEvent) :
  FileUpload.reported
    (map (fun e => FileUpload.setUploadProgress (FileUpload.onUploadProgress e)) evs) = [].
Proof. induction evs as [|e evs IH]; [reflexivity | exact IH]. Qed.

Lemma network_calls_progress (evs : list Axios.ProgressEvent) :
  FileUpload.network_calls
    (map (fun e => FileUpload.setUploadProgress (FileUpload.onUploadProgress e)) evs) = [].
Proof. induction evs as [|e evs IH]; [reflexivity | exact IH]. Qed.

(** Whatever the network does, one drop of an accepted file issues exactly
    one request, for the first file, chosen by its MIME prefix. *)
Lemma onDrop_network_calls (file : Axios.File) (rest : list Axios.File)
  (net : FileUpload.Transfer) :
  FileUpload.network_calls (FileUpload.onDrop (file :: rest) net)
  = [ Axios.axios_request "post"
        ("http://localhost:8000/api/v1/pose" +:+ FileUpload.endpoint file)
        (Axios.FormData "file" file)
        {["Content-Type" := "multipart/form-data"]} ].
Proof.
  unfold FileUpload.onDrop.
  rewrite !network_calls_app, network_calls_progress.
  destruct (FileUpload.settled net) as [[d|]|err]; reflexivity.
Qed.

(** C2: on a successful upload the completion hook is called once, with
    the [filename] property of the response body and with the kind "video"
    exactly when the MIME type of the file starts with "video/"; the same
    test sends the file to the video endpoint, and to the image endpoint
    otherwise. *)
Theorem upload_reports_filename_and_kind (file : Axios.File) (rest : list Axios.File)
  (evs : list Axios.ProgressEvent) (d : FileUpload.UploadData) :
  let t := FileUpload.onDrop (file :: rest)
             {| FileUpload.events := evs;
                FileUpload.settled := Axios.Resolved (Some d) |} in
  exists k : FileUpload.MediaKind,
    FileUpload.reported t = [(FileUpload.filename d, k)] /\
    (k = FileUpload.video <-> JS.startsWith (Axios.type file) "video/" = true) /\
    (k = FileUpload.image <-> JS.startsWith (Axios.type file) "video/" = false) /\
    map Axios.url (FileUpload.network_calls t)
    = [ if JS.startsWith (Axios.type file) "video/"
        then "http://localhost:8000/api/v1/pose/upload-video"
        else "http://localhost:8000/api/v1/pose/upload-image" ].
Proof.
  intros t. exists (FileUpload.kind_of file). subst t.
  rewrite onDrop_network_calls.
  unfold FileUpload.onDrop. rewrite !reported_app, reported_progress.
  cbn [FileUpload.onDrop_begin FileUpload.onDrop_settled FileUpload.reported
       FileUpload.settled flat_map app map Axios.url Axios.axios_request].
  unfold FileUpload.kind_of, FileUpload.endpoint, FileUpload.isVideo.
  destruct (JS.startsWith (Axios.type file) "video/");
    repeat split; try reflexivity; try discriminate; intros _; reflexivity.
Qed.

(** ** Upload progress *)

(** [percent] on integers: [round(l * 100 / t) = floor((200 l + t) / 2 t)]. *)
Lemma percent_Zdiv (l t : Z) :
  (0 < t)%Z -> Axios.percent l t = ((200 * l + t) / (2 * t))%Z.
Proof.
  intros Ht. unfold Axios.percent, JS.round_half_up.
  rewrite Zdiv_Qdiv. apply Qfloor_comp.
  rewrite !inject_Z_plus, !inject_Z_mult.
  assert (Hne : ~ (inject_Z t == 0)%Q).
  { intros H. change 0%Q with (inject_Z 0) in H.
    apply -> inject_Z_injective in H. lia. }
  field. exact Hne.
Qed.

Lemma percent_mono (a b t : Z) :
  (0 < t)%Z -> (a <= b)%Z -> (Axios.percent a t <= Axios.percent b t)%Z.
Proof.
  intros Ht Hab. rewrite !percent_Zdiv by exact Ht.
  apply Z.div_le_mono; lia.
Qed.

Lemma percent_range (l t : Z) :
  (0 < t)%Z -> (0 <= l <= t)%Z -> (0 <= Axios.percent l t <= 100)%Z.
Proof.
  intros Ht Hl. rewrite percent_Zdiv by exact Ht. split.
  - apply Z.div_pos; lia.
  - apply Z.lt_succ_r. apply Z.div_lt_upper_bound; lia.
Qed.

Lemma percent_complete (t : Z) : (0 < t)%Z -> Axios.percent t t = 100%Z.
Proof.
  intros Ht. rewrite percent_Zdiv by exact Ht.
  apply Z.le_antisymm.
  - apply Z.lt_succ_r. apply Z.div_lt_upper_bound; lia.
  - apply Z.div_le_lower_bound; lia.
Qed.

Lemma progress_values_uploadVideo (env : option string) (ls : gmap string string)
  (file : Axios.File) (cb : bool) (evs : list Axios.ProgressEvent) :
  Api.progress_values (Api.uploadVideo env ls file cb evs)
  = flat_map (Api.uploadVideo_onUploadProgress cb) evs.
Proof.
  unfold Api.uploadVideo. cbn [Api.progress_values flat_map app].
  induction (flat_map (Api.uploadVideo_onUploadProgress cb) evs) as [|p l IH];
    [reflexivity | cbn [map flat_map app]; f_equal; exact IH].
Qed.

(** Both handlers on an event that carries a positive total. *)
Lemma handlers_with_total (e : Axios.ProgressEvent) (t : Z) :
  (0 < t)%Z -> Axios.total e = Some t ->
  Api.uploadVideo_onUploadProgress true e = [Axios.percent (Axios.loaded e) t] /\
  FileUpload.onUploadProgress e = Axios.percent (Axios.loaded e) t.
Proof.
  intros Ht He. unfold Api.uploadVideo_onUploadProgress, FileUpload.onUploadProgress.
  rewrite He. unfold JS.truthy, JS.Z_truthy.
  destruct (Z.eqb_spec t 0) as [->|_]; [lia | split; reflexivity].
Qed.

(** Both handlers on an event without a total: the API client makes no
    callback, the upload widget shows 0. *)
Lemma handlers_without_total (l : Z) :
  Api.uploadVideo_onUploadProgress true {| Axios.loaded := l; Axios.total := None |} = [] /\
  FileUpload.onUploadProgress {| Axios.loaded := l; Axios.total := None |} = 0%Z.
Proof. split; reflexivity. Qed.

Lemma last_map {A B} (f : A -> B) (l : list A) :
  last (map f l) = option_map f (last l).
Proof.
  induction l as [|a [|b l] IH]; [reflexivity | reflexivity | exact IH].
Qed.

Lemma Sorted_percent (t : Z) (evs : list Axios.ProgressEvent) :
  (0 < t)%Z ->
  Sorted (fun a b => (Axios.loaded a <= Axios.loaded b)%Z) evs ->
  Sorted Z.le (map (fun e => Axios.percent (Axios.loaded e) t) evs).
Proof.
  intros Ht Hs. induction Hs as [|e evs Hs IH Hhd]; cbn [map]; constructor.
  - exact IH.
  - destruct Hhd as [|b evs Hb]; cbn [map]; constructor.
    apply percent_mono; assumption.
Qed.

(** C3 (as amended): for progress events that carry one positive total
    [t], with [0 <= loaded <= t] and [loaded] never decreasing, the values
    passed to the progress callback of [uploadVideo] are
    [round(loaded * 100 / t)], one per event and in order; the upload
    widget computes the same values; they lie in 0..100 and never
    decrease; and when the last event reports all bytes sent the last
    value is 100.  An event without a total makes no callback in the API
    client and shows 0 in the widget. *)
Theorem progress_values_monotone_to_100 (env : option string) (ls : gmap string string)
  (file : Axios.File) (s : Axios.Settled (option FileUpload.UploadData))
  (t : Z) (evs : list Axios.ProgressEvent) :
  (0 < t)%Z ->
  Forall (fun e => Axios.total e = Some t /\ (0 <= Axios.loaded e <= t)%Z) evs ->
  Sorted (fun a b => (Axios.loaded a <= Axios.loaded b)%Z) evs ->
  let vals := Api.progress_values (Api.uploadVideo env ls file true evs) in
  vals = map (fun e => Axios.percent (Axios.loaded e) t) evs /\
  FileUpload.progress_shown {| FileUpload.events := evs; FileUpload.settled := s |} = vals /\
  Sorted Z.le vals /\
  Forall (fun v => (0 <= v <= 100)%Z) vals /\
  (forall e, last evs = Some e -> Axios.loaded e = t -> last vals = Some 100%Z) /\
  (forall l, Api.uploadVideo_onUploadProgress true
               {| Axios.loaded := l; Axios.total := None |} = [] /\
             FileUpload.onUploadProgress
               {| Axios.loaded := l; Axios.total := None |} = 0%Z).
Proof.
  intros Ht Hwf Hsorted vals.
  assert (Hvals : vals = map (fun e => Axios.percent (Axios.loaded e) t) evs).
  { subst vals. rewrite progress_values_uploadVideo.
    induction Hwf as [|e evs [He _] _ IH]; [reflexivity|].
    cbn [flat_map map].
    destruct (handlers_with_total e t Ht He) as [-> _].
    inversion Hsorted; subst. rewrite IH by assumption. reflexivity. }
  assert (Hshown : FileUpload.progress_shown
                     {| FileUpload.events := evs; FileUpload.settled := s |} = vals).
  { rewrite Hvals. unfold FileUpload.progress_shown. cbn [FileUpload.events].
    clear Hsorted Hvals. induction Hwf as [|e evs [He _] _ IH]; [reflexivity|].
    cbn [map]. destruct (handlers_with_total e t Ht He) as [_ ->].
    f_equal. exact IH. }
  split; [exact Hvals|]. split; [exact Hshown|]. rewrite Hvals.
  split; [apply Sorted_percent; assumption|].
  split; [|split].
  - clear Hsorted Hvals Hshown. induction Hwf as [|e evs [_ Hl] _ IH]; cbn [map]; constructor.
    + apply percent_range; assumption.
    + exact IH.
  - intros e Hlast Hdone. rewrite last_map, Hlast. cbn [option_map].
    rewrite Hdone, percent_complete by exact Ht. reflexivity.
  - intros l. apply handlers_without_total.
Qed.

Lemma progress_values_monotone_to_100_witness :
  Api.progress_values (Api.uploadVideo None ∅ Sample.clip true Sample.steady)
  = [0; 33; 100]%Z /\
  Sorted Z.le (Api.progress_values (Api.uploadVideo None ∅ Sample.clip true Sample.steady)) /\
  last (Api.progress_values (Api.uploadVideo None ∅ Sample.clip true Sample.steady))
  = Some 100%Z.
Proof.
  destruct (progress_values_monotone_to_100 None ∅ Sample.clip
              (Axios.Resolved (Some (Sample.stored "drive.mp4"))) 1000 Sample.steady)
    as (H1 & _ & H3 & _ & H5 & _).
  - lia.
  - repeat constructor; cbn; lia.
  - repeat constructor; cbn; lia.
  - split; [reflexivity|]. split; [exact H3|].
    apply (H5 {| Axios.loaded := 1000; Axios.total := Some 1000%Z |}); reflexivity.
Defined.

(** C3 (as stated) fails: when the progress events carry no total the
    upload still completes, but the API client never calls the progress
    callback, so no value 100 is ever reported, and the upload widget
    shows 0 at every event. *)
Lemma progress_without_total_stops_short :
  Api.progress_values (Api.uploadVideo None ∅ Sample.clip true Sample.unsized) = [] /\
  last (Api.progress_values (Api.uploadVideo None ∅ Sample.clip true Sample.unsized))
  <> Some 100%Z /\
  FileUpload.progress_shown
    {| FileUpload.events := Sample.unsized;
       FileUpload.settled := Axios.Resolved (Some (Sample.stored "drive.mp4")) |}
  = [0; 0]%Z.
Proof. split; [reflexivity|]. split; [discriminate | reflexivity]. Qed.

(** After the upload has settled the widget resets its progress to 0. *)
Lemma onDrop_resets_progress (st : FileUpload.State) (file : Axios.File)
  (rest : list Axios.File) (net : FileUpload.Transfer) :
  FileUpload.uploadProgress (FileUpload.run st (FileUpload.onDrop (file :: rest) net)) = 0%Z /\
  FileUpload.uploading (FileUpload.run st (FileUpload.onDrop (file :: rest) net)) = false.
Proof.
  unfold FileUpload.onDrop, FileUpload.run, FileUpload.onDrop_settled.
  rewrite !app_assoc, !fold_left_app. split; reflexivity.
Qed.

(** ** Analysis: what an invocation resets, and what a failure shows *)

Lemma truthy_string (f : string) : f <> "" -> JS.truthy f = true.
Proof.
  intros Hf. unfold JS.truthy, JS.string_truthy.
  apply negb_true_iff, String.eqb_neq, Hf.
Qed.

(** [detail || fallback] by cases on the [detail] of the payload. *)
Lemma detail_or_fallback (d : option string) (fallback : string) :
  (forall m, d = Some m -> m <> "" -> d ||| fallback = m) /\
  (d = None \/ d = Some "" -> d ||| fallback = fallback).
Proof.
  split.
  - intros m -> Hm. unfold JS.or_else. rewrite (truthy_string m Hm). reflexivity.
  - intros [-> | ->]; reflexivity.
Qed.

(** The state in which a rejected analyze call leaves each view. *)
Lemma analyzeFile_rejected (f : string) (err : Axios.Error) (st : PoseAnalysis.State) :
  f <> "" ->
  PoseAnalysis.run st (PoseAnalysis.analyzeFile (Some f) (Axios.Rejected err))
  = {| PoseAnalysis.analyzing := false;
       PoseAnalysis.result := PoseAnalysis.result st;
       PoseAnalysis.error :=
         Some (((Axios.response err ≫= Axios.data) ≫= Axios.detail)
               ||| "Analysis failed") |}.
Proof.
  intros Hf. unfold PoseAnalysis.analyzeFile. rewrite (truthy_string f Hf). reflexivity.
Qed.

Lemma analyzeVideo_rejected (f : string) (err : Axios.Error) (st : VideoAnalysis.State) :
  f <> "" ->
  VideoAnalysis.run st (VideoAnalysis.analyzeVideo (Some f) (Axios.Rejected err))
  = {| VideoAnalysis.analyzing := false;
       VideoAnalysis.result := VideoAnalysis.result st;
       VideoAnalysis.error :=
         Some (((Axios.response err ≫= Axios.data) ≫= Axios.detail)
               ||| "Video analysis failed") |}.
Proof.
  intros Hf. unfold VideoAnalysis.analyzeVideo. rewrite (truthy_string f Hf). reflexivity.
Qed.

(** C4 (as amended): an invocation of the analyze action with a known
    (non-empty) filename first sets Analyzing and clears the prior error,
    then issues the analyze call for that filename; at the moment of the
    call the workflow is Analyzing, the error is cleared and the prior
    result is still the stored one.  The same holds of the image and of
    the video view. *)
Theorem analyze_clears_error_keeps_result (f : string)
  (st : PoseAnalysis.State) (s : Axios.Settled (option PoseAnalysis.Response))
  (vst : VideoAnalysis.State) (vs : Axios.Settled (option VideoAnalysis.Response)) :
  f <> "" ->
  (PoseAnalysis.analyzeFile (Some f) s
   = [ PoseAnalysis.setAnalyzing true;
       PoseAnalysis.setError None;
       PoseAnalysis.axios_post
         (Axios.axios_request "post"
            ("http://localhost:8000/api/v1/pose/analyze-image/" +:+ f) Axios.NoBody ∅) ]
     ++ PoseAnalysis.analyzeFile_settled s) /\
  PoseAnalysis.run st (PoseAnalysis.before_call (PoseAnalysis.analyzeFile (Some f) s))
  = {| PoseAnalysis.analyzing := true;
       PoseAnalysis.result := PoseAnalysis.result st;
       PoseAnalysis.error := None |} /\
  (VideoAnalysis.analyzeVideo (Some f) vs
   = [ VideoAnalysis.setAnalyzing true;
       VideoAnalysis.setError None;
       VideoAnalysis.axios_post
         (Axios.axios_request "post"
            ("http://localhost:8000/api/v1/pose/analyze-video/" +:+ f) Axios.NoBody ∅) ]
     ++ VideoAnalysis.analyzeVideo_settled vs) /\
  VideoAnalysis.run vst (VideoAnalysis.before_call (VideoAnalysis.analyzeVideo (Some f) vs))
  = {| VideoAnalysis.analyzing := true;
       VideoAnalysis.result := VideoAnalysis.result vst;
       VideoAnalysis.error := None |}.
Proof.
  intros Hf.
  unfold PoseAnalysis.analyzeFile, VideoAnalysis.analyzeVideo.
  rewrite (truthy_string f Hf).
  repeat split; reflexivity.
Qed.

Lemma analyze_clears_error_keeps_result_witness :
  PoseAnalysis.run Sample.showing_earlier
    (PoseAnalysis.before_call
       (PoseAnalysis.analyzeFile (Some "shot.png") (Axios.Resolved None)))
  = {| PoseAnalysis.analyzing := true;
       PoseAnalysis.result := Some Sample.earlier;
       PoseAnalysis.error := None |}.
Proof.
  destruct (analyze_clears_error_keeps_result "shot.png" Sample.showing_earlier
              (Axios.Resolved None) VideoAnalysis.initial (Axios.Resolved None))
    as (_ & H & _).
  - discriminate.
  - exact H.
Defined.

(** C4 (as stated) fails: when the analyze call is issued the result of
    the earlier analysis is still stored; nothing has cleared it. *)
Lemma analyze_does_not_clear_result :
  PoseAnalysis.result
    (PoseAnalysis.run Sample.showing_earlier
       (PoseAnalysis.before_call
          (PoseAnalysis.analyzeFile (Some "shot.png") (Axios.Resolved None))))
  = Some Sample.earlier /\
  PoseAnalysis.result
    (PoseAnalysis.run Sample.showing_earlier
       (PoseAnalysis.before_call
          (PoseAnalysis.analyzeFile (Some "shot.png") (Axios.Resolved None))))
  <> None.
Proof. split; [reflexivity | discriminate]. Qed.

(** C5 (as amended): when an analyze call fails, the stored result is the
    one from before the invocation and the workflow has left Analyzing;
    the error region shows the detail string of the error payload when
    that string is present and not empty, and the fallback of the view
    ("Analysis failed", "Video analysis failed") when the detail is absent
    or empty. *)
Theorem analyze_failure_shows_detail (f : string) (err : Axios.Error)
  (st : PoseAnalysis.State) (vst : VideoAnalysis.State) :
  f <> "" ->
  let detail := (Axios.response err ≫= Axios.data) ≫= Axios.detail in
  let st' := PoseAnalysis.run st (PoseAnalysis.analyzeFile (Some f) (Axios.Rejected err)) in
  let vst' := VideoAnalysis.run vst (VideoAnalysis.analyzeVideo (Some f) (Axios.Rejected err)) in
  (PoseAnalysis.result st' = PoseAnalysis.result st /\
   PoseAnalysis.analyzing st' = false /\
   VideoAnalysis.result vst' = VideoAnalysis.result vst /\
   VideoAnalysis.analyzing vst' = false) /\
  (forall m, detail = Some m -> m <> "" ->
     PoseAnalysis.errorAlert st' = Some m /\ VideoAnalysis.errorAlert vst' = Some m) /\
  (detail = None \/ detail = Some "" ->
     PoseAnalysis.errorAlert st' = Some "Analysis failed" /\
     VideoAnalysis.errorAlert vst' = Some "Video analysis failed").
Proof.
  intros Hf detail st' vst'. subst st' vst'.
  rewrite (analyzeFile_rejected f err st Hf), (analyzeVideo_rejected f err vst Hf).
  fold detail.
  unfold PoseAnalysis.errorAlert, VideoAnalysis.errorAlert.
  cbn [PoseAnalysis.result PoseAnalysis.analyzing PoseAnalysis.error
       VideoAnalysis.result VideoAnalysis.analyzing VideoAnalysis.error].
  split; [repeat split; reflexivity|]. split.
  - intros m Hd Hm.
    destruct (detail_or_fallback detail "Analysis failed") as [Hp _].
    destruct (detail_or_fallback detail "Video analysis failed") as [Hv _].
    rewrite (Hp m Hd Hm), (Hv m Hd Hm).
    change (JS.truthy (Some m)) with (JS.truthy m).
    rewrite (truthy_string m Hm). split; reflexivity.
  - intros Hd.
    destruct (detail_or_fallback detail "Analysis failed") as [_ Hp].
    destruct (detail_or_fallback detail "Video analysis failed") as [_ Hv].
    rewrite (Hp Hd), (Hv Hd).
    split; reflexivity.
Qed.

Lemma analyze_failure_shows_detail_witness :
  PoseAnalysis.errorAlert
    (PoseAnalysis.run Sample.showing_earlier
       (PoseAnalysis.analyzeFile (Some "shot.png")
          (Axios.Rejected (Sample.service_error (Some "file not found")))))
  = Some "file not found" /\
  PoseAnalysis.result
    (PoseAnalysis.run Sample.showing_earlier
       (PoseAnalysis.analyzeFile (Some "shot.png")
          (Axios.Rejected (Sample.service_error (Some "file not found")))))
  = Some Sample.earlier.
Proof.
  destruct (analyze_failure_shows_detail "shot.png"
              (Sample.service_error (Some "file not found"))
              Sample.showing_earlier VideoAnalysis.initial)
    as ((H1 & _) & H2 & _).
  - discriminate.
  - split; [|exact H1].
    apply (H2 "file not found"); [reflexivity | discriminate].
Defined.

(** C5 (as stated) fails: a payload whose [detail] field is the empty
    string has a detail field, yet the error region shows the fallback
    message and not that string. *)
Lemma empty_detail_shows_fallback :
  PoseAnalysis.errorAlert
    (PoseAnalysis.run PoseAnalysis.initial
       (PoseAnalysis.analyzeFile (Some "shot.png")
          (Axios.Rejected (Sample.service_error (Some "")))))
  = Some "Analysis failed" /\
  PoseAnalysis.errorAlert
    (PoseAnalysis.run PoseAnalysis.initial
       (PoseAnalysis.analyzeFile (Some "shot.png")
          (Axios.Rejected (Sample.service_error (Some "")))))
  <> Some "".
Proof. split; [reflexivity | discriminate]. Qed.

(** ** The bearer token *)

(** Every operation of [poseAnalysisAPI] goes through the request
    interceptor: with a non-empty token in browser storage its request
    carries [Authorization: Bearer <token>]. *)
Lemma api_client_attaches_token (env : option string) (ls : gmap string string)
  (token : string) (op : Api.Operation) :
  ls !! "auth_token" = Some token -> token <> "" ->
  Axios.headers (Api.request_of env ls op) !! "Authorization"
  = Some ("Bearer " +:+ token).
Proof.
  intros Hls Htok.
  assert (Hsend : forall m p b h,
             Axios.headers (Api.send env ls m p b h) !! "Authorization"
             = Some ("Bearer " +:+ token)).
  { intros m p b h. unfold Api.send, Api.request_interceptor.
    rewrite Hls, (truthy_string token Htok). cbn [Axios.headers].
    apply lookup_insert_eq. }
  destruct op; apply Hsend.
Qed.

Lemma api_client_attaches_token_witness :
  Axios.headers (Api.request_of None Sample.logged_in (Api.AnalyzeImage "shot.png"))
    !! "Authorization"
  = Some "Bearer abc123".
Proof.
  apply (api_client_attaches_token None Sample.logged_in "abc123"
           (Api.AnalyzeImage "shot.png")).
  - reflexivity.
  - discriminate.
Defined.

(** Without a token (or with an empty one) the interceptor adds nothing. *)
Lemma api_client_without_token (env : option string) (ls : gmap string string)
  (op : Api.Operation) :
  ls !! "auth_token" = None ->
  Axios.headers (Api.request_of env ls op) !! "Authorization" = None.
Proof.
  intros Hls.
  assert (Hsend : forall m p b (h : gmap string string),
             h !! "Authorization" = None ->
             Axios.headers (Api.send env ls m p b h) !! "Authorization" = None).
  { intros m p b h Hh. unfold Api.send, Api.request_interceptor.
    rewrite Hls. cbn [Axios.headers].
    apply lookup_union_None. split; [exact Hh | reflexivity]. }
  destruct op; apply Hsend; reflexivity.
Qed.

(** The three calls the components make do not go through [apiClient]:
    whatever browser storage holds, their requests carry no
    [Authorization] header. *)
Lemma component_calls_carry_no_authorization
  (file : Axios.File) (rest : list Axios.File) (net : FileUpload.Transfer)
  (f : string) (s : Axios.Settled (option PoseAnalysis.Response))
  (vs : Axios.Settled (option VideoAnalysis.Response)) :
  Forall (fun c => Axios.headers c !! "Authorization" = None)
    (FileUpload.network_calls (FileUpload.onDrop (file :: rest) net)) /\
  Forall (fun c => Axios.headers c !! "Authorization" = None)
    (PoseAnalysis.network_calls (PoseAnalysis.analyzeFile (Some f) s)) /\
  Forall (fun c => Axios.headers c !! "Authorization" = None)
    (VideoAnalysis.network_calls (VideoAnalysis.analyzeVideo (Some f) vs)).
Proof.
  split; [|split].
  - rewrite onDrop_network_calls. repeat constructor.
  - unfold PoseAnalysis.analyzeFile. destruct (JS.truthy f); [|constructor].
    destruct s; repeat constructor.
  - unfold VideoAnalysis.analyzeVideo. destruct (JS.truthy f); [|constructor].
    destruct vs; repeat constructor.
Qed.

(** C6 at a concrete input: with the token "abc123" in browser storage,
    the API client's [analyzeImage] request carries the bearer header,
    while the requests actually issued by the image view, the video view
    and the upload widget carry none. *)
Theorem component_calls_skip_bearer_token :
  Sample.logged_in !! "auth_token" = Some "abc123" /\
  Axios.headers (Api.analyzeImage None Sample.logged_in "shot.png") !! "Authorization"
  = Some "Bearer abc123" /\
  map (fun c => Axios.headers c !! "Authorization")
    (PoseAnalysis.network_calls
       (PoseAnalysis.analyzeFile (Some "shot.png") (Axios.Resolved (Some Sample.earlier))))
  = [None] /\
  map (fun c => Axios.headers c !! "Authorization")
    (VideoAnalysis.network_calls
       (VideoAnalysis.analyzeVideo (Some "drive.mp4") (Axios.Resolved None)))
  = [None] /\
  map (fun c => Axios.headers c !! "Authorization")
    (FileUpload.network_calls
       (FileUpload.onDrop [Sample.clip]
          {| FileUpload.events := Sample.steady;
             FileUpload.settled := Axios.Resolved (Some (Sample.stored "drive.mp4")) |}))
  = [None].
Proof. repeat split; vm_compute; reflexivity. Qed.

(** ** Upload: re-entrancy and rejected files *)

(** C7 (as amended): the upload workflow has no re-entrancy guard;
    [onDrop] never reads the Uploading flag.  In every state, Uploading
    included, a drop with an accepted file issues one new upload call, for
    its first file, and by the time of that call has set Uploading and
    cleared the error and the result.  Only a drop with no accepted file
    is ignored: it performs no action at all. *)
Theorem drop_is_not_guarded (st : FileUpload.State) (file : Axios.File)
  (rest : list Axios.File) (net : FileUpload.Transfer) :
  FileUpload.network_calls (FileUpload.onDrop (file :: rest) net)
  = [ Axios.axios_request "post"
        ("http://localhost:8000/api/v1/pose" +:+ FileUpload.endpoint file)
        (Axios.FormData "file" file)
        {["Content-Type" := "multipart/form-data"]} ] /\
  FileUpload.run st (FileUpload.onDrop_begin file)
  = {| FileUpload.uploading := true;
       FileUpload.uploadProgress := FileUpload.uploadProgress st;
       FileUpload.uploadResult := None;
       FileUpload.error := None |} /\
  FileUpload.onDrop [] net = [] /\
  FileUpload.run st (FileUpload.onDrop [] net) = st.
Proof.
  split; [apply onDrop_network_calls|]. repeat split; reflexivity.
Qed.

(** C7 (as stated) fails: while the upload of a clip is in flight
    (Uploading), dropping a photo starts a second network call, and once
    that second upload settles the state has changed: Uploading is off
    and a result is stored, although the first upload is still running. *)
Lemma drop_while_uploading_starts_call :
  FileUpload.uploading
    (FileUpload.run FileUpload.initial (FileUpload.onDrop_begin Sample.clip)) = true /\
  map Axios.url
    (FileUpload.network_calls
       (FileUpload.onDrop [Sample.photo]
          {| FileUpload.events := [];
             FileUpload.settled := Axios.Resolved (Some (Sample.stored "shot.png")) |}))
  = ["http://localhost:8000/api/v1/pose/upload-image"] /\
  FileUpload.run
    (FileUpload.run FileUpload.initial (FileUpload.onDrop_begin Sample.clip))
    (FileUpload.onDrop [Sample.photo]
       {| FileUpload.events := [];
          FileUpload.settled := Axios.Resolved (Some (Sample.stored "shot.png")) |})
  = {| FileUpload.uploading := false;
       FileUpload.uploadProgress := 0;
       FileUpload.uploadResult := Some (Sample.stored "shot.png");
       FileUpload.error := None |} /\
  FileUpload.run
    (FileUpload.run FileUpload.initial (FileUpload.onDrop_begin Sample.clip))
    (FileUpload.onDrop [Sample.photo]
       {| FileUpload.events := [];
          FileUpload.settled := Axios.Resolved (Some (Sample.stored "shot.png")) |})
  <> FileUpload.run FileUpload.initial (FileUpload.onDrop_begin Sample.clip).
Proof. repeat split; try reflexivity. discriminate. Qed.

(** A file the drop zone rejects never reaches [onDrop]. *)
Lemma rejected_not_accepted (fileAccepted : list (string * list string) -> Axios.File -> bool)
  (file : Axios.File) :
  (50 * 1024 * 1024 < Axios.size file)%Z \/
  fileAccepted (FileUpload.accept FileUpload.dropzoneOptions) file = false ->
  FileUpload.accepted fileAccepted file = [].
Proof.
  intros [Hsize | Htype]; unfold FileUpload.accepted.
  - unfold FileUpload.fileMatchSize. cbn [FileUpload.maxSize FileUpload.dropzoneOptions].
    destruct (Z.leb_spec (Axios.size file) (50 * 1024 * 1024)) as [Hle|_]; [lia|].
    rewrite andb_false_r. reflexivity.
  - rewrite Htype. reflexivity.
Qed.

(** C8 (as amended): for every upload attempt whose file is larger than
    50MB or fails the drop zone's test against the accept list, [onDrop]
    receives no file: no network call is made and the state of the
    component is unchanged.  In particular no validation message is
    displayed: the error region shows exactly what it showed before the
    attempt. *)
Theorem rejected_file_is_dropped_silently
  (fileAccepted : list (string * list string) -> Axios.File -> bool)
  (file : Axios.File) (net : FileUpload.Transfer) (st : FileUpload.State) :
  (50 * 1024 * 1024 < Axios.size file)%Z \/
  fileAccepted (FileUpload.accept FileUpload.dropzoneOptions) file = false ->
  FileUpload.network_calls (FileUpload.drop fileAccepted file net) = [] /\
  FileUpload.run st (FileUpload.drop fileAccepted file net) = st /\
  FileUpload.errorAlert (FileUpload.run st (FileUpload.drop fileAccepted file net))
  = FileUpload.errorAlert st.
Proof.
  intros Hrej. unfold FileUpload.drop.
  rewrite (rejected_not_accepted fileAccepted file Hrej).
  repeat split; reflexivity.
Qed.

Lemma rejected_file_is_dropped_silently_witness :
  FileUpload.network_calls
    (FileUpload.drop Sample.by_extension Sample.oversized
       {| FileUpload.events := Sample.steady;
          FileUpload.settled := Axios.Resolved (Some (Sample.stored "game.mp4")) |}) = [] /\
  FileUpload.network_calls
    (FileUpload.drop Sample.by_extension Sample.notes
       {| FileUpload.events := Sample.steady;
          FileUpload.settled := Axios.Resolved (Some (Sample.stored "notes.txt")) |}) = [].
Proof.
  split.
  - apply (rejected_file_is_dropped_silently Sample.by_extension Sample.oversized _
             FileUpload.initial).
    left. reflexivity.
  - apply (rejected_file_is_dropped_silently Sample.by_extension Sample.notes _
             FileUpload.initial).
    right. reflexivity.
Defined.

(** C8 (as stated) fails: after a 60MB file and after a .txt file were
    turned away, the error region of the component is empty; no validation
    message is displayed. *)
Lemma rejected_file_shows_no_message :
  (50 * 1024 * 1024 < Axios.size Sample.oversized)%Z /\
  FileUpload.errorAlert
    (FileUpload.run FileUpload.initial
       (FileUpload.drop Sample.by_extension Sample.oversized
          {| FileUpload.events := Sample.steady;
             FileUpload.settled := Axios.Resolved (Some (Sample.stored "game.mp4")) |}))
  = None /\
  Sample.by_extension (FileUpload.accept FileUpload.dropzoneOptions) Sample.notes = false /\
  FileUpload.errorAlert
    (FileUpload.run FileUpload.initial
       (FileUpload.drop Sample.by_extension Sample.notes
          {| FileUpload.events := Sample.steady;
             FileUpload.settled := Axios.Resolved (Some (Sample.stored "notes.txt")) |}))
  = None.
Proof. repeat split; reflexivity. Qed.

(** ** Rendering of numeric metrics *)

Lemma app_nonempty_r (s1 s2 : string) : s2 <> "" -> s1 +:+ s2 <> "".
Proof.
  intros H2. destruct s1 as [|c s1]; [exact H2 | discriminate].
Qed.

(** With at least one fraction digit the text of [toFixed] contains a
    point, so it is never the empty (falsy) string. *)
Lemma toFixed_truthy (x : Q) (f : nat) : f <> O -> JS.truthy (JS.toFixed x f) = true.
Proof.
  intros Hf. apply truthy_string. unfold JS.toFixed.
  destruct (Nat.eqb_spec f 0) as [->|_]; [congruence|].
  apply app_nonempty_r, app_nonempty_r. discriminate.
Qed.

Lemma metric_cases (v : option Q) (digits : nat) :
  digits <> O ->
  PoseAnalysis.metric v digits
  = match v with Some x => JS.toFixed x digits | None => "N/A" end.
Proof.
  intros Hd. unfold PoseAnalysis.metric. destruct v as [x|]; [|reflexivity].
  cbn [fmap option_fmap option_map JS.or_else].
  rewrite (toFixed_truthy x digits Hd). reflexivity.
Qed.

Lemma velocity_cases (v : option Q) :
  VideoAnalysis.velocity v
  = match v with Some x => JS.toFixed x 4 | None => "N/A" end.
Proof.
  unfold VideoAnalysis.velocity. destruct v as [x|]; [|reflexivity].
  cbn [fmap option_fmap option_map JS.or_else].
  rewrite (toFixed_truthy x 4) by discriminate. reflexivity.
Qed.

(** The cells computed with [Math.round(x * 100)] and no default print
    "NaN%" when the field is missing. *)
Lemma smoothness_missing (q : option string) (r a m : option Q) :
  VideoAnalysis.smoothnessCell
    {| VideoAnalysis.motion_quality := q; VideoAnalysis.smoothness_score := None;
       VideoAnalysis.rhythm_consistency := r; VideoAnalysis.average_velocity := a;
       VideoAnalysis.max_velocity := m |} = "NaN%".
Proof. reflexivity. Qed.

(** C9 (as amended): in the pose-metric cells (balance ratio, torso
    angle, body symmetry, shoulder width) and in the velocity cells
    (average, maximum) a field that is absent from the response renders
    the literal "N/A" (the torso-angle cell appends its degree suffix),
    and a field that is present renders its [toFixed] text.  The
    confidence cell and the quality-score cell default an absent field
    to 0 and render "Confidence: 0%" and "Score: 0/100". *)
Theorem missing_metric_placeholders (m : PoseAnalysis.PoseMetrics)
  (v : VideoAnalysis.MotionAnalysis)
  (p : option PoseAnalysis.TopDownPrediction) (d : option PoseAnalysis.Details)
  (c : option string) (q : option Q) :
  PoseAnalysis.balanceRatioCell m
  = match PoseAnalysis.balance_ratio m with Some x => JS.toFixed x 2 | None => "N/A" end /\
  PoseAnalysis.torsoAngleCell m
  = match PoseAnalysis.torso_angle m with Some x => JS.toFixed x 1 | None => "N/A" end
    +:+ PoseAnalysis.degrees /\
  PoseAnalysis.bodySymmetryCell m
  = match PoseAnalysis.body_symmetry m with Some x => JS.toFixed x 3 | None => "N/A" end /\
  PoseAnalysis.shoulderWidthCell m
  = match PoseAnalysis.shoulder_width m with Some x => JS.toFixed x 3 | None => "N/A" end /\
  VideoAnalysis.avgVelocityCell v
  = match VideoAnalysis.average_velocity v with Some x => JS.toFixed x 4 | None => "N/A" end /\
  VideoAnalysis.maxVelocityCell v
  = match VideoAnalysis.max_velocity v with Some x => JS.toFixed x 4 | None => "N/A" end /\
  PoseAnalysis.scoreCell
    {| PoseAnalysis.top_down_prediction := p; PoseAnalysis.details := d;
       PoseAnalysis.quality_score := None |} = "Score: 0/100" /\
  PoseAnalysis.confidenceCell
    {| PoseAnalysis.top_down_prediction := None; PoseAnalysis.details := d;
       PoseAnalysis.quality_score := q |} = "Confidence: 0%" /\
  PoseAnalysis.confidenceCell
    {| PoseAnalysis.top_down_prediction :=
         Some {| PoseAnalysis.class := c; PoseAnalysis.confidence := None |};
       PoseAnalysis.details := d;
       PoseAnalysis.quality_score := q |} = "Confidence: 0%".
Proof.
  unfold PoseAnalysis.balanceRatioCell, PoseAnalysis.torsoAngleCell,
    PoseAnalysis.bodySymmetryCell, PoseAnalysis.shoulderWidthCell,
    VideoAnalysis.avgVelocityCell, VideoAnalysis.maxVelocityCell.
  rewrite !metric_cases by discriminate. rewrite !velocity_cases.
  repeat split; reflexivity.
Qed.

(** C9 (as stated) fails: for a response that has none of the optional
    numeric fields the quality-score cell reads "Score: 0/100" and the
    confidence cell "Confidence: 0%": a zero, not the placeholder. *)
Lemma missing_score_renders_zero :
  PoseAnalysis.quality_score Sample.bare = None /\
  PoseAnalysis.scoreCell Sample.bare = "Score: 0/100" /\
  PoseAnalysis.scoreCell Sample.bare <> "Score: N/A/100" /\
  PoseAnalysis.top_down_prediction Sample.bare ≫= PoseAnalysis.confidence = None /\
  PoseAnalysis.confidenceCell Sample.bare = "Confidence: 0%" /\
  PoseAnalysis.confidenceCell Sample.bare <> "Confidence: N/A%" /\
  PoseAnalysis.qualityBarColor Sample.bare = Mui.error.
Proof. repeat split; try reflexivity; discriminate. Qed.

(** ** The view chosen after an upload *)

(** Whatever kind the upload widget reports, [handleFileUpload] stores the
    filename and opens tab 1, the image-analysis view. *)
Lemma handleFileUpload_opens_pose_tab (filename : option string)
  (kind : FileUpload.MediaKind) (st : App.State) :
  App.visiblePanel (App.onFileUpload filename kind st) = App.PoseAnalysisPanel filename.
Proof. reflexivity. Qed.

(** After any successful upload, of an image or of a video, the visible
    panel is the image-analysis view, holding the filename of the response. *)
Lemma upload_always_opens_pose_panel (file : Axios.File) (rest : list Axios.File)
  (evs : list Axios.ProgressEvent) (d : FileUpload.UploadData) (st : App.State) :
  App.visiblePanel
    (App.after_upload st
       (FileUpload.onDrop (file :: rest)
          {| FileUpload.events := evs;
             FileUpload.settled := Axios.Resolved (Some d) |}))
  = App.PoseAnalysisPanel (FileUpload.filename d).
Proof.
  unfold App.after_upload, FileUpload.onDrop.
  rewrite !reported_app, reported_progress. reflexivity.
Qed.

(** C10 at a concrete input: a 10MB .mp4 is uploaded, the widget reports
    [("drive.mp4", video)], and the top level shows the image-analysis
    view (tab 1) with that filename instead of the video-analysis view
    (tab 2). *)
Theorem video_upload_opens_pose_tab :
  FileUpload.reported
    (FileUpload.onDrop [Sample.clip]
       {| FileUpload.events := Sample.steady;
          FileUpload.settled := Axios.Resolved (Some (Sample.stored "drive.mp4")) |})
  = [(Some "drive.mp4", FileUpload.video)] /\
  App.visiblePanel
    (App.after_upload App.initial
       (FileUpload.onDrop [Sample.clip]
          {| FileUpload.events := Sample.steady;
             FileUpload.settled := Axios.Resolved (Some (Sample.stored "drive.mp4")) |}))
  = App.PoseAnalysisPanel (Some "drive.mp4") /\
  App.activeTab
    (App.after_upload App.initial
       (FileUpload.onDrop [Sample.clip]
          {| FileUpload.events := Sample.steady;
             FileUpload.settled := Axios.Resolved (Some (Sample.stored "drive.mp4")) |}))
  = 1%Z.
Proof. repeat split; reflexivity. Qed.

(** The stand-in accept test lets a file with a listed extension through,
    and such a drop does reach the network. *)
Lemma accepted_file_is_uploaded :
  FileUpload.accepted Sample.by_extension Sample.clip = [Sample.clip] /\
  map Axios.url
    (FileUpload.network_calls
       (FileUpload.drop Sample.by_extension Sample.clip
          {| FileUpload.events := Sample.steady;
             FileUpload.settled := Axios.Resolved (Some (Sample.stored "drive.mp4")) |}))
  = ["http://localhost:8000/api/v1/pose/upload-video"].
Proof. split; reflexivity. Qed.

(** * Further properties of the code *)

(** ** The API client *)

Lemma string_app_assoc (a b c : string) : (a +:+ b) +:+ c = a +:+ (b +:+ c).
Proof.
  induction a as [|x a IH]; [reflexivity|].
  change (String x ((a +:+ b) +:+ c) = String x (a +:+ (b +:+ c))).
  rewrite IH. reflexivity.
Qed.

Lemma interceptor_frame (ls : gmap string string) (config : Axios.RequestConfig) :
  Axios.method (Api.request_interceptor ls config) = Axios.method config /\
  Axios.url (Api.request_interceptor ls config) = Axios.url config /\
  Axios.body (Api.request_interceptor ls config) = Axios.body config.
Proof.
  unfold Api.request_interceptor.
  destruct (ls !! "auth_token") as [token|]; [|repeat split].
  destruct (JS.truthy token); repeat split.
Qed.

(** The request interceptor touches the [Authorization] header and
    nothing else: method, URL, body and every other header are those of
    the request it was given; running it twice changes nothing more; and
    without a token, or with an empty one, the request is returned as it
    came. *)
Theorem interceptor_only_sets_authorization (ls : gmap string string)
  (config : Axios.RequestConfig) :
  Axios.method (Api.request_interceptor ls config) = Axios.method config /\
  Axios.url (Api.request_interceptor ls config) = Axios.url config /\
  Axios.body (Api.request_interceptor ls config) = Axios.body config /\
  (forall h, h <> "Authorization" ->
     Axios.headers (Api.request_interceptor ls config) !! h = Axios.headers config !! h) /\
  Api.request_interceptor ls (Api.request_interceptor ls config)
  = Api.request_interceptor ls config /\
  (ls !! "auth_token" = None \/ ls !! "auth_token" = Some "" ->
     Api.request_interceptor ls config = config).
Proof.
  destruct (interceptor_frame ls config) as (Hm & Hu & Hb).
  split; [exact Hm|]. split; [exact Hu|]. split; [exact Hb|].
  unfold Api.request_interceptor.
  destruct (ls !! "auth_token") as [token|] eqn:Hls.
  - destruct (JS.truthy token) eqn:Ht.
    + cbn [Axios.method Axios.url Axios.body Axios.headers].
      split; [|split].
      * intros h Hh. apply lookup_insert_ne. congruence.
      * rewrite insert_insert_eq. reflexivity.
      * intros [H|H]; [discriminate|]. injection H as ->. discriminate.
    + split; [|split]; [intros h _ | | intros _]; reflexivity.
  - split; [|split]; [intros h _ | | intros _]; reflexivity.
Qed.

Lemma interceptor_only_sets_authorization_witness :
  Axios.headers
    (Api.request_interceptor Sample.logged_in
       (Axios.axios_request "post" "/pose/upload-image" Axios.NoBody Api.multipart))
    !! "Content-Type"
  = Some "multipart/form-data" /\
  Api.request_interceptor {["auth_token" := ""]}
    (Axios.axios_request "get" "/pose/pose-classes" Axios.NoBody ∅)
  = Axios.axios_request "get" "/pose/pose-classes" Axios.NoBody ∅.
Proof.
  split.
  - destruct (interceptor_only_sets_authorization Sample.logged_in
                (Axios.axios_request "post" "/pose/upload-image" Axios.NoBody Api.multipart))
      as (_ & _ & _ & H & _).
    rewrite (H "Content-Type"); [reflexivity | discriminate].
  - destruct (interceptor_only_sets_authorization {["auth_token" := ""]}
                (Axios.axios_request "get" "/pose/pose-classes" Axios.NoBody ∅))
      as (_ & _ & _ & _ & _ & H).
    apply H. right. reflexivity.
Defined.

Lemma send_content_type (env : option string) (ls : gmap string string)
  (m p : string) (b : Axios.Body) (h : gmap string string) :
  Axios.headers (Api.send env ls m p b h) !! "Content-Type"
  = (h ∪ Api.default_headers (Api.apiClient env)) !! "Content-Type".
Proof.
  unfold Api.send, Api.request_interceptor.
  destruct (ls !! "auth_token") as [token|]; [|reflexivity].
  destruct (JS.truthy token); [|reflexivity].
  cbn [Axios.headers]. apply lookup_insert_ne. discriminate.
Qed.


(** The direct calls of the components reach the endpoints of the API
    client under its default base URL: the upload widget's request has
    the method, URL and body of [uploadVideo] or [uploadImage] (by the MIME
    prefix of the file), the image view's those of [analyzeImage], the
    video view's those of [analyzeVideo].  With [REACT_APP_API_URL] set to
    a non-empty [base] the API client goes to [base] instead, and the
    components still go to localhost. *)
Theorem component_calls_match_api_defaults (ls : gmap string string)
  (file : Axios.File) (rest : list Axios.File) (net : FileUpload.Transfer)
  (f base : string) (s : Axios.Settled (option PoseAnalysis.Response))
  (vs : Axios.Settled (option VideoAnalysis.Response)) :
  f <> "" -> base <> "" ->
  (exists c, FileUpload.network_calls (FileUpload.onDrop (file :: rest) net) = [c] /\
     Target.same_target c
       (if FileUpload.isVideo file then Api.uploadVideo_request None ls file
        else Api.uploadImage None ls file)) /\
  (exists c, PoseAnalysis.network_calls (PoseAnalysis.analyzeFile (Some f) s) = [c] /\
     Target.same_target c (Api.analyzeImage None ls f)) /\
  (exists c, VideoAnalysis.network_calls (VideoAnalysis.analyzeVideo (Some f) vs) = [c] /\
     Target.same_target c (Api.analyzeVideo None ls f)) /\
  Axios.url (Api.analyzeImage (Some base) ls f)
  = base +:+ "/api/v1/pose/analyze-image/" +:+ f /\
  Axios.url (Api.analyzeImage (Some "") ls f) = Axios.url (Api.analyzeImage None ls f).
Proof.
  intros Hf Hbase.
  assert (Hsend : forall env m p b h,
            Axios.method (Api.send env ls m p b h) = m /\
            Axios.url (Api.send env ls m p b h) = Api.baseURL (Api.apiClient env) +:+ p /\
            Axios.body (Api.send env ls m p b h) = b).
  { intros env m p b h. unfold Api.send.
    destruct (interceptor_frame ls
                {| Axios.method := m;
                   Axios.url := Api.baseURL (Api.apiClient env) +:+ p;
                   Axios.headers := h ∪ Api.default_headers (Api.apiClient env);
                   Axios.body := b |}) as (-> & -> & ->).
    repeat split. }
  split; [|split; [|split; [|split]]].
  - eexists. split; [apply onDrop_network_calls|].
    unfold Target.same_target, FileUpload.endpoint, Api.uploadVideo_request, Api.uploadImage.
    destruct (FileUpload.isVideo file).
    + destruct (Hsend None "post" "/pose/upload-video" (Axios.FormData "file" file)
                  Api.multipart) as (H1 & H2 & H3).
      rewrite H1, H2, H3. repeat split.
    + destruct (Hsend None "post" "/pose/upload-image" (Axios.FormData "file" file)
                  Api.multipart) as (H1 & H2 & H3).
      rewrite H1, H2, H3. repeat split.
  - unfold PoseAnalysis.analyzeFile. rewrite (truthy_string f Hf).
    eexists. split.
    + destruct s; reflexivity.
    + unfold Target.same_target, Api.analyzeImage.
      destruct (Hsend None "post" ("/pose/analyze-image/" +:+ f) Axios.NoBody ∅)
        as (H1 & H2 & H3).
      rewrite H1, H2, H3. repeat split.
  - unfold VideoAnalysis.analyzeVideo. rewrite (truthy_string f Hf).
    eexists. split.
    + destruct vs; reflexivity.
    + unfold Target.same_target, Api.analyzeVideo.
      destruct (Hsend None "post" ("/pose/analyze-video/" +:+ f) Axios.NoBody ∅)
        as (H1 & H2 & H3).
      rewrite H1, H2, H3. repeat split.
  - unfold Api.analyzeImage.
    destruct (Hsend (Some base) "post" ("/pose/analyze-image/" +:+ f) Axios.NoBody ∅)
      as (_ & -> & _).
    cbn [Api.baseURL Api.apiClient]. unfold Api.API_BASE_URL, JS.or_else.
    rewrite (truthy_string base Hbase).
    rewrite !string_app_assoc. reflexivity.
  - unfold Api.analyzeImage.
    destruct (Hsend (Some "") "post" ("/pose/analyze-image/" +:+ f) Axios.NoBody ∅)
      as (_ & -> & _).
    destruct (Hsend None "post" ("/pose/analyze-image/" +:+ f) Axios.NoBody ∅)
      as (_ & -> & _).
    reflexivity.
Qed.

Lemma component_calls_match_api_defaults_witness :
  Axios.url (Api.analyzeImage (Some "https://api.example.org") Sample.logged_in "shot.png")
  = "https://api.example.org/api/v1/pose/analyze-image/shot.png" /\
  map Axios.url
    (PoseAnalysis.network_calls
       (PoseAnalysis.analyzeFile (Some "shot.png") (Axios.Resolved None)))
  = [Axios.url (Api.analyzeImage None Sample.logged_in "shot.png")].
Proof.
  destruct (component_calls_match_api_defaults Sample.logged_in Sample.photo []
              {| FileUpload.events := []; FileUpload.settled := Axios.Resolved None |}
              "shot.png" "https://api.example.org" (Axios.Resolved None) (Axios.Resolved None))
    as (_ & (c & Hc & _ & Hurl & _) & _ & Hbase & _).
  - discriminate.
  - discriminate.
  - split; [exact Hbase|]. rewrite Hc. cbn [map]. rewrite Hurl. reflexivity.
Defined.

(** Without a progress callback [uploadVideo] reports nothing; with one it
    reports one value for each progress event whose total is truthy and
    none for the others, so never more values than events; and the
    request is always its first action. *)
Theorem uploadVideo_progress_calls (env : option string) (ls : gmap string string)
  (file : Axios.File) (evs : list Axios.ProgressEvent) :
  Api.progress_values (Api.uploadVideo env ls file false evs) = [] /\
  length (Api.progress_values (Api.uploadVideo env ls file true evs))
  = length (filter (fun e => JS.truthy (Axios.total e) = true) evs) /\
  (length (Api.progress_values (Api.uploadVideo env ls file true evs)) <= length evs)%nat /\
  head (Api.uploadVideo env ls file true evs)
  = Some (Api.request (Api.uploadVideo_request env ls file)).
Proof.
  rewrite !progress_values_uploadVideo.
  assert (Hlen : length (flat_map (Api.uploadVideo_onUploadProgress true) evs)
                 = length (filter (fun e => JS.truthy (Axios.total e) = true) evs)).
  { induction evs as [|e evs IH]; [reflexivity|].
    cbn [flat_map]. rewrite length_app, IH, filter_cons.
    unfold Api.uploadVideo_onUploadProgress.
    destruct (Axios.total e) as [t|]; cbn [andb].
    - change (JS.truthy (Some t)) with (JS.truthy t).
      destruct (JS.truthy t); case_decide; try congruence; reflexivity.
    - case_decide; [discriminate | reflexivity]. }
  split; [|split; [exact Hlen|split; [|reflexivity]]].
  - clear Hlen. induction evs as [|e evs IH]; [reflexivity|].
    cbn [flat_map]. rewrite IH. unfold Api.uploadVideo_onUploadProgress.
    destruct (Axios.total e); reflexivity.
  - rewrite Hlen. apply length_filter.
Qed.

(** ** The analysis workflow *)

(** The entry guard: the analyze handler of either view performs no
    action at all (no state change, no request, no callback) exactly when
    [uploadedFile] is falsy, that is [null] or the empty string. *)
Theorem analyze_guard (u : option string)
  (s : Axios.Settled (option PoseAnalysis.Response))
  (vs : Axios.Settled (option VideoAnalysis.Response)) :
  (PoseAnalysis.analyzeFile u s = [] <-> JS.truthy u = false) /\
  (VideoAnalysis.analyzeVideo u vs = [] <-> JS.truthy u = false).
Proof.
  unfold PoseAnalysis.analyzeFile, VideoAnalysis.analyzeVideo.
  destruct u as [f|]; [|split; split; reflexivity].
  change (JS.truthy (Some f)) with (JS.truthy f).
  destruct (JS.truthy f); split; split; try reflexivity; discriminate.
Qed.

(** A resolved analysis fully determines the state of the view: the
    payload is stored, the error is cleared and Analyzing is off,
    whatever the state was before; the completion callback receives that
    same payload, once.  A rejected analysis never calls the completion
    callback.  Either way exactly one request is issued. *)
Theorem analyze_outcome (f : string) (st : PoseAnalysis.State) (vst : VideoAnalysis.State)
  (d : option PoseAnalysis.Response) (vd : option VideoAnalysis.Response)
  (err : Axios.Error) :
  f <> "" ->
  PoseAnalysis.run st (PoseAnalysis.analyzeFile (Some f) (Axios.Resolved d))
  = {| PoseAnalysis.analyzing := false; PoseAnalysis.result := d;
       PoseAnalysis.error := None |} /\
  Completion.pose (PoseAnalysis.analyzeFile (Some f) (Axios.Resolved d)) = [d] /\
  Completion.pose (PoseAnalysis.analyzeFile (Some f) (Axios.Rejected err)) = [] /\
  VideoAnalysis.run vst (VideoAnalysis.analyzeVideo (Some f) (Axios.Resolved vd))
  = {| VideoAnalysis.analyzing := false; VideoAnalysis.result := vd;
       VideoAnalysis.error := None |} /\
  Completion.video (VideoAnalysis.analyzeVideo (Some f) (Axios.Resolved vd)) = [vd] /\
  Completion.video (VideoAnalysis.analyzeVideo (Some f) (Axios.Rejected err)) = [] /\
  length (PoseAnalysis.network_calls (PoseAnalysis.analyzeFile (Some f) (Axios.Resolved d)))
  = 1%nat /\
  length (PoseAnalysis.network_calls (PoseAnalysis.analyzeFile (Some f) (Axios.Rejected err)))
  = 1%nat /\
  length (VideoAnalysis.network_calls (VideoAnalysis.analyzeVideo (Some f) (Axios.Resolved vd)))
  = 1%nat /\
  length (VideoAnalysis.network_calls (VideoAnalysis.analyzeVideo (Some f) (Axios.Rejected err)))
  = 1%nat.
Proof.
  intros Hf. unfold PoseAnalysis.analyzeFile, VideoAnalysis.analyzeVideo.
  rewrite (truthy_string f Hf). repeat split; reflexivity.
Qed.

Lemma analyze_outcome_witness :
  PoseAnalysis.run Sample.showing_earlier
    (PoseAnalysis.analyzeFile (Some "shot.png") (Axios.Resolved None))
  = PoseAnalysis.initial.
Proof.
  destruct (analyze_outcome "shot.png" Sample.showing_earlier VideoAnalysis.initial
              None None Axios.TypeError) as (H & _).
  - discriminate.
  - exact H.
Defined.

Section SingleFlight.

Context {State Outcome : Type}.
Variable analyzing : State -> bool.
Variable begin : string -> State -> State.
Variable settle : Outcome -> State -> State.
Hypothesis begin_sets : forall f st, analyzing (begin f st) = true.
Hypothesis settle_clears : forall o st, analyzing (settle o st) = false.

Lemma react_balanced (v : AnalyzeButton.View) (e : AnalyzeButton.event) :
  AnalyzeButton.balanced analyzing v ->
  AnalyzeButton.balanced analyzing (AnalyzeButton.react analyzing begin settle v e).
Proof.
  unfold AnalyzeButton.balanced. intros Hv.
  destruct e as [|o|f]; cbn [AnalyzeButton.react].
  - unfold AnalyzeButton.clickable.
    destruct (analyzing (AnalyzeButton.state v)) eqn:Ha.
    + rewrite andb_false_r, Ha. exact Hv.
    + destruct (AnalyzeButton.uploadedFile v) as [g|] eqn:Hu;
        [|cbn; rewrite Ha; exact Hv].
      change (JS.truthy (Some g)) with (JS.truthy g).
      destruct (JS.truthy g); cbn [andb negb]; [|rewrite Ha; exact Hv].
      cbn [AnalyzeButton.in_flight AnalyzeButton.state].
      rewrite begin_sets, Hv. reflexivity.
  - destruct (AnalyzeButton.in_flight v) as [|n] eqn:Hn; [rewrite Hn; exact Hv|].
    cbn [AnalyzeButton.in_flight AnalyzeButton.state]. rewrite settle_clears.
    destruct (analyzing (AnalyzeButton.state v)); congruence.
  - exact Hv.
Qed.

Lemma play_balanced (events : list AnalyzeButton.event) (v : AnalyzeButton.View) :
  AnalyzeButton.balanced analyzing v ->
  AnalyzeButton.balanced analyzing (AnalyzeButton.play analyzing begin settle v events).
Proof.
  revert v. induction events as [|e events IH]; intros v Hv; [exact Hv|].
  apply IH, react_balanced, Hv.
Qed.

End SingleFlight.

(** However the user clicks, whatever props arrive and however the calls
    settle, each analysis view has at most one analyze request in flight:
    one while it is Analyzing, none otherwise.  (The button is disabled
    while Analyzing, and every settlement turns Analyzing off.) *)
Theorem analysis_single_flight
  (pose_events : list (@AnalyzeButton.event (Axios.Settled (option PoseAnalysis.Response))))
  (video_events : list (@AnalyzeButton.event (Axios.Settled (option VideoAnalysis.Response)))) :
  AnalyzeButton.in_flight (AnalyzeButton.pose_play pose_events)
  = (if PoseAnalysis.analyzing (AnalyzeButton.state (AnalyzeButton.pose_play pose_events))
     then 1%nat else 0%nat) /\
  AnalyzeButton.in_flight (AnalyzeButton.video_play video_events)
  = (if VideoAnalysis.analyzing (AnalyzeButton.state (AnalyzeButton.video_play video_events))
     then 1%nat else 0%nat) /\
  (AnalyzeButton.in_flight (AnalyzeButton.pose_play pose_events) <= 1)%nat /\
  (AnalyzeButton.in_flight (AnalyzeButton.video_play video_events) <= 1)%nat.
Proof.
  assert (Hp : AnalyzeButton.balanced PoseAnalysis.analyzing (AnalyzeButton.pose_play pose_events)).
  { apply play_balanced; [reflexivity | | reflexivity].
    intros o st. unfold AnalyzeButton.pose_settle, PoseAnalysis.analyzeFile_settled,
      PoseAnalysis.run.
    rewrite fold_left_app. reflexivity. }
  assert (Hv : AnalyzeButton.balanced VideoAnalysis.analyzing (AnalyzeButton.video_play video_events)).
  { apply play_balanced; [reflexivity | | reflexivity].
    intros o st. unfold AnalyzeButton.video_settle, VideoAnalysis.analyzeVideo_settled,
      VideoAnalysis.run.
    rewrite fold_left_app. reflexivity. }
  unfold AnalyzeButton.balanced in Hp, Hv. repeat split; try assumption.
  - rewrite Hp. destruct (PoseAnalysis.analyzing _); lia.
  - rewrite Hv. destruct (VideoAnalysis.analyzing _); lia.
Qed.

(** A second click while the first call is in flight is ignored, and a
    new click is served once the call has settled. *)
Lemma double_click_is_ignored :
  AnalyzeButton.in_flight
    (AnalyzeButton.pose_play
       [AnalyzeButton.Props (Some "shot.png"); AnalyzeButton.Click; AnalyzeButton.Click])
  = 1%nat /\
  AnalyzeButton.in_flight
    (AnalyzeButton.pose_play
       [AnalyzeButton.Props (Some "shot.png"); AnalyzeButton.Click;
        AnalyzeButton.Settle (Axios.Resolved None); AnalyzeButton.Click])
  = 1%nat /\
  AnalyzeButton.in_flight
    (AnalyzeButton.pose_play [AnalyzeButton.Click]) = 0%nat.
Proof. repeat split; reflexivity. Qed.

(** ** The upload workflow *)

(** Progress events move the progress bar and nothing else. *)
Lemma run_progress (evs : list Axios.ProgressEvent) (st : FileUpload.State) :
  exists p,
    FileUpload.run st
      (map (fun e => FileUpload.setUploadProgress (FileUpload.onUploadProgress e)) evs)
    = {| FileUpload.uploading := FileUpload.uploading st;
         FileUpload.uploadProgress := p;
         FileUpload.uploadResult := FileUpload.uploadResult st;
         FileUpload.error := FileUpload.error st |}.
Proof.
  revert st. induction evs as [|e evs IH]; intros st.
  - exists (FileUpload.uploadProgress st). destruct st; reflexivity.
  - cbn [map FileUpload.run fold_left].
    destruct (IH (FileUpload.step st
                    (FileUpload.setUploadProgress (FileUpload.onUploadProgress e))))
      as [p Hp].
    exists p. exact Hp.
Qed.

Lemma or_else_truthy (a : option string) (b : string) :
  b <> "" -> JS.truthy (a ||| b) = true.
Proof.
  intros Hb. unfold JS.or_else. destruct a as [x|]; [|apply truthy_string, Hb].
  destruct (JS.truthy x) eqn:E; [exact E | apply truthy_string, Hb].
Qed.


(** The message of a failed upload: the detail of the error payload when
    it is a non-empty string, "Upload failed" when the payload has no
    detail, an empty one, or there is no payload at all (network error). *)
Theorem upload_failure_message (st : FileUpload.State) (file : Axios.File)
  (rest : list Axios.File) (evs : list Axios.ProgressEvent) (err : Axios.Error) :
  let detail := (Axios.response err ≫= Axios.data) ≫= Axios.detail in
  let st' := FileUpload.run st
               (FileUpload.onDrop (file :: rest)
                  {| FileUpload.events := evs; FileUpload.settled := Axios.Rejected err |}) in
  (forall m, detail = Some m -> m <> "" -> FileUpload.errorAlert st' = Some m) /\
  (detail = None \/ detail = Some "" -> FileUpload.errorAlert st' = Some "Upload failed") /\
  (Axios.response err = None -> FileUpload.errorAlert st' = Some "Upload failed").
Proof.
  intros detail st'.
  assert (Hst : FileUpload.errorAlert st' = Some (detail ||| "Upload failed")).
  { subst st' detail. unfold FileUpload.onDrop, FileUpload.run.
    rewrite !fold_left_app.
    fold (FileUpload.run st (FileUpload.onDrop_begin file)).
    cbn [FileUpload.events FileUpload.settled].
    fold (FileUpload.run (FileUpload.run st (FileUpload.onDrop_begin file))
            (map (fun e => FileUpload.setUploadProgress (FileUpload.onUploadProgress e)) evs)).
    destruct (run_progress evs (FileUpload.run st (FileUpload.onDrop_begin file))) as [p ->].
    cbn. unfold FileUpload.errorAlert. cbn [FileUpload.error].
    change (JS.truthy (Some (((Axios.response err ≫= Axios.data) ≫= Axios.detail)
                             ||| "Upload failed")))
      with (JS.truthy (((Axios.response err ≫= Axios.data) ≫= Axios.detail)
                       ||| "Upload failed")).
    rewrite or_else_truthy by discriminate. reflexivity. }
  rewrite Hst. destruct (detail_or_fallback detail "Upload failed") as [H1 H2].
  split; [|split].
  - intros m Hd Hm. rewrite (H1 m Hd Hm). reflexivity.
  - intros Hd. rewrite (H2 Hd). reflexivity.
  - intros Hr. rewrite H2; [reflexivity|]. left. subst detail. rewrite Hr. reflexivity.
Qed.

Lemma upload_failure_message_witness :
  FileUpload.errorAlert
    (FileUpload.run FileUpload.initial
       (FileUpload.onDrop [Sample.clip]
          {| FileUpload.events := Sample.steady;
             FileUpload.settled :=
               Axios.Rejected (Sample.service_error (Some "File too large")) |}))
  = Some "File too large" /\
  FileUpload.errorAlert
    (FileUpload.run FileUpload.initial
       (FileUpload.onDrop [Sample.clip]
          {| FileUpload.events := Sample.steady;
             FileUpload.settled := Axios.Rejected Axios.TypeError |}))
  = Some "Upload failed".
Proof.
  split.
  - destruct (upload_failure_message FileUpload.initial Sample.clip [] Sample.steady
                (Sample.service_error (Some "File too large"))) as (H & _).
    apply (H "File too large"); [reflexivity | discriminate].
  - destruct (upload_failure_message FileUpload.initial Sample.clip [] Sample.steady
                Axios.TypeError) as (_ & _ & H).
    apply H. reflexivity.
Defined.

(** A dropped file reaches the network exactly when it passes both tests
    of the drop zone, the accept test and the size test, the latter
    admitting a file of exactly 52428800 bytes (50MB) and nothing larger;
    then it is uploaded once. *)
Theorem drop_uploads_iff_accepted
  (fileAccepted : list (string * list string) -> Axios.File -> bool)
  (file : Axios.File) (net : FileUpload.Transfer) :
  length (FileUpload.network_calls (FileUpload.drop fileAccepted file net))
  = (if fileAccepted (FileUpload.accept FileUpload.dropzoneOptions) file
        && (Axios.size file <=? 52428800)%Z
     then 1%nat else 0%nat).
Proof.
  unfold FileUpload.drop, FileUpload.accepted, FileUpload.fileMatchSize.
  change (FileUpload.maxSize FileUpload.dropzoneOptions) with 52428800%Z.
  destruct (fileAccepted (FileUpload.accept FileUpload.dropzoneOptions) file
            && (Axios.size file <=? 52428800)%Z).
  - rewrite onDrop_network_calls. reflexivity.
  - reflexivity.
Qed.

(** ** Labels and case-insensitive matches *)

Ltac each_ascii c := destruct c as [[] [] [] [] [] [] [] []].

Lemma upper_facts (c : ascii) :
  Text.is_lower (Text.upper c) = false /\
  Text.upper (Text.upper c) = Text.upper c /\
  VideoAnalysis.lower (Text.upper c) = VideoAnalysis.lower c /\
  VideoAnalysis.lower (VideoAnalysis.lower c) = VideoAnalysis.lower c /\
  (c <> "_"%char -> Text.upper c <> "_"%char) /\
  ((nat_of_ascii c <? 128)%nat = true -> (nat_of_ascii (Text.upper c) <? 128)%nat = true).
Proof.
  each_ascii c; vm_compute; repeat split; congruence.
Qed.

Lemma toLowerCase_toUpperCase (s : string) :
  VideoAnalysis.toLowerCase (Text.toUpperCase s) = VideoAnalysis.toLowerCase s.
Proof.
  induction s as [|c s IH]; [reflexivity|].
  cbn [Text.toUpperCase VideoAnalysis.toLowerCase].
  destruct (upper_facts c) as (_ & _ & -> & _). rewrite IH. reflexivity.
Qed.

Lemma toLowerCase_idempotent (s : string) :
  VideoAnalysis.toLowerCase (VideoAnalysis.toLowerCase s) = VideoAnalysis.toLowerCase s.
Proof.
  induction s as [|c s IH]; [reflexivity|].
  cbn [VideoAnalysis.toLowerCase].
  destruct (upper_facts c) as (_ & _ & _ & -> & _). rewrite IH. reflexivity.
Qed.

(** On ASCII text the colour of the motion-quality chip and the icon of
    the quality rating do not depend on the case of the letters: the
    upper-cased and the lower-cased spelling get what the original gets;
    the chip is green exactly for the spellings of "smooth" and amber
    exactly for those of "moderate". *)
Theorem quality_matches_ignore_case (q : string) :
  Text.is_ascii q = true ->
  VideoAnalysis.getMotionQualityColor (Text.toUpperCase q)
  = VideoAnalysis.getMotionQualityColor q /\
  VideoAnalysis.getMotionQualityColor (VideoAnalysis.toLowerCase q)
  = VideoAnalysis.getMotionQualityColor q /\
  PoseAnalysisView.getQualityIcon (Text.toUpperCase q) = PoseAnalysisView.getQualityIcon q /\
  PoseAnalysisView.getQualityIcon (VideoAnalysis.toLowerCase q)
  = PoseAnalysisView.getQualityIcon q /\
  (VideoAnalysis.getMotionQualityColor q = Mui.success
   <-> VideoAnalysis.toLowerCase q = "smooth") /\
  (VideoAnalysis.getMotionQualityColor q = Mui.warning
   <-> VideoAnalysis.toLowerCase q = "moderate").
Proof.
  intros _.
  unfold VideoAnalysis.getMotionQualityColor, PoseAnalysisView.getQualityIcon.
  rewrite !toLowerCase_toUpperCase, !toLowerCase_idempotent.
  split; [reflexivity|]. split; [reflexivity|]. split; [reflexivity|].
  split; [reflexivity|].
  destruct (String.eqb_spec (VideoAnalysis.toLowerCase q) "smooth") as [E|E].
  - rewrite E. split; split; try reflexivity; discriminate.
  - destruct (String.eqb_spec (VideoAnalysis.toLowerCase q) "moderate") as [E'|E'].
    + split; split; try discriminate; try reflexivity; congruence.
    + split; split; try discriminate; congruence.
Qed.

Lemma quality_matches_ignore_case_witness :
  VideoAnalysis.getMotionQualityColor "SMOOTH" = VideoAnalysis.getMotionQualityColor "Smooth" /\
  VideoAnalysis.getMotionQualityColor "Smooth" = Mui.success.
Proof.
  destruct (quality_matches_ignore_case "Smooth") as (H1 & _ & _ & _ & H5 & _).
  - reflexivity.
  - split; [exact H1 | apply H5; reflexivity].
Defined.

Lemma chipLabel_cons (c : ascii) (s : string) :
  Text.chipLabel (String c s)
  = String (Text.upper (if Ascii.eqb c "_" then " "%char else c)) (Text.chipLabel s).
Proof. reflexivity. Qed.

Lemma chip_char_facts (c : ascii) :
  let u := Text.upper (if Ascii.eqb c "_" then " "%char else c) in
  u <> "_"%char /\ Text.is_lower u = false /\
  Text.upper (if Ascii.eqb u "_" then " "%char else u) = u /\
  ((nat_of_ascii c <? 128)%nat = true -> (nat_of_ascii u <? 128)%nat = true).
Proof.
  each_ascii c; vm_compute; repeat split; congruence.
Qed.

(** The label of a joint or pose chip, for an ASCII name: it is as long
    as the name, it contains no underscore and no lower-case letter, it
    is ASCII again, and labelling it once more changes nothing. *)
Theorem chipLabel_shape (s : string) :
  Text.is_ascii s = true ->
  String.length (Text.chipLabel s) = String.length s /\
  Forall (fun c => c <> "_"%char /\ Text.is_lower c = false) (Text.chars (Text.chipLabel s)) /\
  Text.is_ascii (Text.chipLabel s) = true /\
  Text.chipLabel (Text.chipLabel s) = Text.chipLabel s.
Proof.
  induction s as [|c s IH]; intros Hs.
  - repeat split. constructor.
  - cbn [Text.is_ascii] in Hs. apply andb_true_iff in Hs as [Hc Hs].
    destruct (IH Hs) as (Hlen & Hall & Hasc & Hidem).
    rewrite chipLabel_cons.
    destruct (chip_char_facts c) as (Hu & Hl & Hfix & Hc').
    cbn zeta in Hu, Hl, Hfix, Hc'.
    split; [|split; [|split]].
    + cbn [String.length]. rewrite Hlen. reflexivity.
    + cbn [Text.chars]. constructor; [split; assumption | exact Hall].
    + cbn [Text.is_ascii]. rewrite (Hc' Hc), Hasc. reflexivity.
    + rewrite chipLabel_cons, Hfix, Hidem. reflexivity.
Qed.

Lemma chipLabel_shape_witness :
  Text.chipLabel "left_knee" = "LEFT KNEE" /\
  String.length (Text.chipLabel "left_knee") = 9%nat.
Proof.
  destruct (chipLabel_shape "left_knee") as (H & _).
  - reflexivity.
  - split; [reflexivity | exact H].
Defined.

(** ** Percentages, labels and colours *)

Lemma round_percent_range (q : Q) :
  (0 <= q)%Q -> (q <= 1)%Q -> (0 <= JS.round_half_up (q * 100) <= 100)%Z.
Proof.
  intros H0 H1. unfold JS.round_half_up. split.
  - change 0%Z with (Qfloor 0). apply Qfloor_resp_le.
    apply Qle_trans with (0 * 100 + 0)%Q; [apply Qle_refl|].
    apply Qplus_le_compat; [|discriminate].
    apply Qmult_le_compat_r; [exact H0 | discriminate].
  - change 100%Z with (Qfloor (1 * 100 + (1 # 2))). apply Qfloor_resp_le.
    apply Qplus_le_compat; [|apply Qle_refl].
    apply Qmult_le_compat_r; [exact H1 | discriminate].
Qed.

Lemma round_percent_mono (p q : Q) :
  (p <= q)%Q -> (JS.round_half_up (p * 100) <= JS.round_half_up (q * 100))%Z.
Proof.
  intros H. unfold JS.round_half_up. apply Qfloor_resp_le.
  apply Qplus_le_compat; [|apply Qle_refl].
  apply Qmult_le_compat_r; [exact H | discriminate].
Qed.

Lemma round_percent_text (q : Q) :
  JS.toString (JS.Math_round (JS.mul (JS.Num q) (JS.Num 100)))
  = JS.Z_toString (JS.round_half_up (q * 100)).
Proof. cbn [JS.mul JS.Math_round JS.toString]. rewrite Qfloor_Z. reflexivity. Qed.

Lemma or_zero_round (q : Q) :
  JS.round_half_up ((Some q ||| 0%Q) * 100) = JS.round_half_up (q * 100).
Proof.
  unfold JS.or_else, JS.truthy, JS.Q_truthy.
  destruct (Qeq_bool q 0) eqn:E; cbn [negb]; [|reflexivity].
  apply Qeq_bool_eq in E. unfold JS.round_half_up. apply Qfloor_comp.
  rewrite E. reflexivity.
Qed.



(** In the progress view the label and the colour of a session row always
    agree (Excellent is green, Good is amber, Needs Work is red), while
    the Performance Level card has only two colours: Advanced is green,
    Intermediate and Beginner are both amber, never red. *)
Theorem progress_labels_and_colours (q : JS.number) :
  (PlayerProgress.sessionLabel q = "Excellent" <-> PlayerProgress.sessionColor q = Mui.success) /\
  (PlayerProgress.sessionLabel q = "Good" <-> PlayerProgress.sessionColor q = Mui.warning) /\
  (PlayerProgress.sessionLabel q = "Needs Work" <-> PlayerProgress.sessionColor q = Mui.error) /\
  (PlayerProgress.levelLabel q = "Advanced" <-> PlayerProgress.levelColor q = Mui.success) /\
  (PlayerProgress.levelLabel q = "Intermediate" \/ PlayerProgress.levelLabel q = "Beginner"
   <-> PlayerProgress.levelColor q = Mui.warning) /\
  PlayerProgress.levelColor q <> Mui.error.
Proof.
  unfold PlayerProgress.sessionLabel, PlayerProgress.sessionColor,
    PlayerProgress.levelLabel, PlayerProgress.levelColor.
  destruct (JS.gt q (JS.Num 0.8)); destruct (JS.gt q (JS.Num 0.6));
    repeat split; try reflexivity; try discriminate;
    try (intros [H|H]; discriminate); try (intros _; left; reflexivity);
    try (intros _; right; reflexivity).
Qed.

(** ** The top level across events *)

Lemma play_app (st : App.State) (e1 e2 : list AppEvents.event) :
  AppEvents.play st (e1 ++ e2) = AppEvents.play (AppEvents.play st e1) e2.
Proof. apply fold_left_app. Qed.

(** Whatever sequence of tab changes, uploads and completed analyses the
    top level sees, the filename it hands to the views is that of the
    last upload (the one it started with when there was none) and the
    analysis it hands to the progress view is the last completed one: tab
    changes alter neither, an upload does not discard the analysis and
    an analysis does not discard the filename.  Opening the video tab
    after an upload shows the video view with the uploaded filename. *)
Theorem top_level_keeps_last_upload (st : App.State) (events : list AppEvents.event)
  (f : option string) (k : FileUpload.MediaKind) :
  App.uploadedFile (AppEvents.play st events)
  = default (App.uploadedFile st) (AppEvents.last_uploaded events) /\
  App.analysisResult (AppEvents.play st events)
  = match AppEvents.last_analysis events with
    | Some r => Some r
    | None => App.analysisResult st
    end /\
  App.visiblePanel
    (AppEvents.play st (events ++ [AppEvents.FileUploaded f k; AppEvents.TabChange 2]))
  = App.VideoAnalysisPanel f.
Proof.
  split; [|split].
  - revert st. induction events as [|e events IH]; intros st; [reflexivity|].
    cbn [AppEvents.play fold_left AppEvents.last_uploaded].
    fold (AppEvents.play (AppEvents.handle st e) events). rewrite IH.
    destruct (AppEvents.last_uploaded events); [reflexivity|].
    destruct e; reflexivity.
  - revert st. induction events as [|e events IH]; intros st; [reflexivity|].
    cbn [AppEvents.play fold_left AppEvents.last_analysis].
    fold (AppEvents.play (AppEvents.handle st e) events). rewrite IH.
    destruct (AppEvents.last_analysis events); [reflexivity|].
    destruct e; reflexivity.
  - rewrite play_app. reflexivity.
Qed.

(** ** What is rendered of a result *)

(** A feedback section (strengths, improvements, tips, observations,
    drills) is rendered exactly when its list is present and not empty,
    and then with the items of the list as they are; the joints card is
    different: it is rendered whenever the list is present, with one
    label per joint, so an empty list gives an empty card. *)
Theorem feedback_sections_shown (l : option (list string)) (items : list string)
  (a : PoseAnalysis.Analysis) :
  (PoseAnalysisView.section l = Some items <-> l = Some items /\ items <> []) /\
  (PoseAnalysisView.section l = None <-> l = None \/ l = Some []) /\
  (PoseAnalysis.details a ≫= PoseAnalysis.important_joints = Some [] ->
   PoseAnalysisView.jointsCard a = Some []) /\
  (forall js, PoseAnalysis.details a ≫= PoseAnalysis.important_joints = Some js ->
     exists labels, PoseAnalysisView.jointsCard a = Some labels /\
                    length labels = length js).
Proof.
  unfold PoseAnalysisView.section, PoseAnalysisView.jointsCard.
  split; [|split; [|split]].
  - destruct l as [[|x xs]|]; cbn; split.
    + discriminate.
    + intros [H Hne]. injection H as <-. congruence.
    + intros H. injection H as <-. split; [reflexivity | discriminate].
    + intros [H _]. exact H.
    + discriminate.
    + intros [H _]. discriminate.
  - destruct l as [[|x xs]|]; cbn; split; try (intros _; reflexivity).
    + intros _. right. reflexivity.
    + discriminate.
    + intros [H|H]; discriminate.
    + intros _. left. reflexivity.
  - intros ->. reflexivity.
  - intros js ->. eexists. split; [reflexivity|]. apply length_map.
Qed.

Lemma feedback_sections_shown_witness :
  PoseAnalysisView.section (Some ["Keep the elbow in"]) = Some ["Keep the elbow in"] /\
  PoseAnalysisView.section (Some []) = None.
Proof.
  destruct (feedback_sections_shown (Some ["Keep the elbow in"]) ["Keep the elbow in"]
              Sample.bare) as (H1 & _).
  destruct (feedback_sections_shown (Some []) [] Sample.bare) as (_ & H2 & _).
  split.
  - apply H1. split; [reflexivity | discriminate].
  - apply H2. right. reflexivity.
Defined.

(** A call that resolves with no body, or with a body that has no
    [analysis] property, ends silently in both views: Analyzing is off,
    no error is shown and no result card is rendered, yet the completion
    callback has been called with that payload. *)
Theorem resolved_without_analysis_is_silent (f : string)
  (st : PoseAnalysis.State) (vst : VideoAnalysis.State)
  (d : option PoseAnalysis.Response) (vd : option VideoAnalysis.Response) :
  f <> "" ->
  d ≫= PoseAnalysis.analysis = None ->
  vd ≫= VideoAnalysis.analysis = None ->
  let st' := PoseAnalysis.run st (PoseAnalysis.analyzeFile (Some f) (Axios.Resolved d)) in
  let vst' := VideoAnalysis.run vst (VideoAnalysis.analyzeVideo (Some f) (Axios.Resolved vd)) in
  PoseAnalysisView.resultCards st' = None /\
  PoseAnalysis.errorAlert st' = None /\
  PoseAnalysis.analyzing st' = false /\
  Completion.pose (PoseAnalysis.analyzeFile (Some f) (Axios.Resolved d)) = [d] /\
  VideoAnalysisView.resultCards vst' = VideoAnalysisView.Nothing /\
  VideoAnalysis.errorAlert vst' = None /\
  VideoAnalysis.analyzing vst' = false /\
  Completion.video (VideoAnalysis.analyzeVideo (Some f) (Axios.Resolved vd)) = [vd].
Proof.
  intros Hf Hd Hvd st' vst'. subst st' vst'.
  unfold PoseAnalysis.analyzeFile, VideoAnalysis.analyzeVideo.
  rewrite (truthy_string f Hf).
  unfold PoseAnalysisView.resultCards, VideoAnalysisView.resultCards.
  cbn [PoseAnalysis.analyzeFile_begin PoseAnalysis.analyzeFile_settled PoseAnalysis.run
       VideoAnalysis.analyzeVideo_begin VideoAnalysis.analyzeVideo_settled VideoAnalysis.run
       fold_left app PoseAnalysis.step VideoAnalysis.step
       PoseAnalysis.result VideoAnalysis.result PoseAnalysis.analyzing
       VideoAnalysis.analyzing PoseAnalysis.error VideoAnalysis.error].
  rewrite Hd, Hvd. repeat split.
Qed.

Lemma resolved_without_analysis_is_silent_witness :
  PoseAnalysisView.resultCards
    (PoseAnalysis.run PoseAnalysis.initial
       (PoseAnalysis.analyzeFile (Some "shot.png")
          (Axios.Resolved
             (Some {| PoseAnalysis.success := Some false;
                      PoseAnalysis.filename := Some "shot.png";
                      PoseAnalysis.analysis := None |}))))
  = None.
Proof.
  destruct (resolved_without_analysis_is_silent "shot.png" PoseAnalysis.initial
              VideoAnalysis.initial
              (Some {| PoseAnalysis.success := Some false;
                       PoseAnalysis.filename := Some "shot.png";
                       PoseAnalysis.analysis := None |})
              None) as (H & _).
  - discriminate.
  - reflexivity.
  - reflexivity.
  - exact H.
Defined.

(** Rendering the result of a video analysis throws exactly when the
    response has a [motion_analysis] without [motion_quality]: the colour
    of the chip is computed from [quality.toLowerCase()].  Every other
    property of the motion card may be missing: with [motion_quality]
    alone the card is rendered, the two scores as "NaN%" in the amber
    colour and the two velocities as "N/A". *)
Theorem motion_card_needs_quality (st : VideoAnalysis.State) (q : string) :
  (VideoAnalysisView.resultCards st = VideoAnalysisView.Throws
   <-> exists m, (VideoAnalysis.result st ≫= VideoAnalysis.analysis)
                 ≫= VideoAnalysis.motion_analysis = Some m /\
                 VideoAnalysis.motion_quality m = None) /\
  VideoAnalysisView.motionCard
    {| VideoAnalysis.motion_quality := Some q; VideoAnalysis.smoothness_score := None;
       VideoAnalysis.rhythm_consistency := None; VideoAnalysis.average_velocity := None;
       VideoAnalysis.max_velocity := None |}
  = VideoAnalysisView.Shown
      {| VideoAnalysisView.quality_chip := (q, VideoAnalysis.getMotionQualityColor q);
         VideoAnalysisView.smoothness := ("NaN%", Mui.warning);
         VideoAnalysisView.rhythm := ("NaN%", Mui.warning);
         VideoAnalysisView.avg_velocity := "N/A";
         VideoAnalysisView.max_velocity_cell := "N/A" |}.
Proof.
  split; [|reflexivity].
  unfold VideoAnalysisView.resultCards, VideoAnalysisView.motionSection,
    VideoAnalysisView.motionCard.
  destruct (VideoAnalysis.result st ≫= VideoAnalysis.analysis) as [a|]; cbn [mbind option_bind].
  - destruct (VideoAnalysis.motion_analysis a) as [m|].
    + destruct (VideoAnalysis.motion_quality m) as [mq|] eqn:Hq; split.
      * discriminate.
      * intros (m' & Hm & Hq'). injection Hm as <-. congruence.
      * intros _. exists m. split; [reflexivity | exact Hq].
      * reflexivity.
    + split; [discriminate | intros (m & Hm & _); discriminate].
  - split; [discriminate | intros (m & Hm & _); discriminate].
Qed.

(** Every slice of the practice pie gets a fill colour, whatever the
    number of slices: the six colours repeat with period six. *)
Theorem slice_fill_cycles (index : nat) :
  is_Some (PlayerProgressView.sliceFill index) /\
  PlayerProgressView.sliceFill (index + 6) = PlayerProgressView.sliceFill index.
Proof.
  unfold PlayerProgressView.sliceFill.
  change (length PlayerProgressView.COLORS) with 6%nat. split.
  - apply lookup_lt_is_Some.
    change (length PlayerProgressView.COLORS) with 6%nat.
    apply Nat.mod_upper_bound. discriminate.
  - replace ((index + 6) mod 6)%nat with (index mod 6)%nat; [reflexivity|].
    rewrite <- (Nat.Div0.add_mod_idemp_r index 6 6). cbn [Nat.modulo].
    change (6 mod 6)%nat with 0%nat. rewrite Nat.add_0_r. reflexivity.
Qed.

(** ** From the upload to the analyze call *)

(** The analyze call is made for the filename the server assigned: after
    a successful upload whose response names a non-empty [filename], the
    visible image view holds that name and its analyze action posts to
    [analyze-image/<filename>], for a video file as for an image.  When
    the response has no [filename] the view holds none and its analyze
    action does nothing. *)
Theorem analyze_uses_server_filename (st : App.State) (file : Axios.File)
  (rest : list Axios.File) (evs : list Axios.ProgressEvent) (d : FileUpload.UploadData)
  (s : Axios.Settled (option PoseAnalysis.Response)) :
  let app := App.after_upload st
               (FileUpload.onDrop (file :: rest)
                  {| FileUpload.events := evs;
                     FileUpload.settled := Axios.Resolved (Some d) |}) in
  App.uploadedFile app = FileUpload.filename d /\
  (forall fn, FileUpload.filename d = Some fn -> fn <> "" ->
     map Axios.url
       (PoseAnalysis.network_calls (PoseAnalysis.analyzeFile (App.uploadedFile app) s))
     = ["http://localhost:8000/api/v1/pose/analyze-image/" +:+ fn]) /\
  (FileUpload.filename d = None ->
     PoseAnalysis.analyzeFile (App.uploadedFile app) s = []).
Proof.
  intros app.
  assert (Happ : App.uploadedFile app = FileUpload.filename d).
  { subst app. unfold App.after_upload, FileUpload.onDrop.
    rewrite !reported_app, reported_progress. reflexivity. }
  rewrite Happ. split; [reflexivity|]. split.
  - intros fn -> Hfn. unfold PoseAnalysis.analyzeFile.
    rewrite (truthy_string fn Hfn). destruct s; reflexivity.
  - intros ->. reflexivity.
Qed.

Lemma analyze_uses_server_filename_witness :
  map Axios.url
    (PoseAnalysis.network_calls
       (PoseAnalysis.analyzeFile
          (App.uploadedFile
             (App.after_upload App.initial
                (FileUpload.onDrop [Sample.clip]
                   {| FileUpload.events := Sample.steady;
                      FileUpload.settled :=
                        Axios.Resolved (Some (Sample.stored "a1b2_drive.mp4")) |})))
          (Axios.Resolved None)))
  = ["http://localhost:8000/api/v1/pose/analyze-image/a1b2_drive.mp4"].
Proof.
  destruct (analyze_uses_server_filename App.initial Sample.clip [] Sample.steady
              (Sample.stored "a1b2_drive.mp4") (Axios.Resolved None)) as (_ & H & _).
  apply (H "a1b2_drive.mp4"); [reflexivity | discriminate].
Defined.
